(** * Items API: request validation pipeline and item service

    A shallow embedding of the TypeScript sources

    - [src/common/validate-content-type.ts]
    - [src/common/filters/json-parse-exception.filter.ts]
    - [src/items/items.service.ts]

    together with the properties of the specification that concern them.

    JavaScript strings are modelled by [string]: a sequence of code units
    restricted to the Latin-1 range (this is what Node hands over for header
    values); white space beyond U+00FF is outside the model.  Numbers are
    modelled by [Z]; no floating point value occurs in the modelled code
    apart from [NaN], which is written [None].

    The file has two parts: the embedding (modules [JS], [ContentType],
    [Nest], [Filter], [JSDate], [Items]) and the properties (modules
    [ContentTypeTests], [ContentTypeProps], [FilterProps], [ItemsProps]). *)

From stdpp Require Import base numbers strings gmap pretty.
From Stdlib Require Import ZArith Ascii String Lia.

Local Open Scope string_scope.
Local Open Scope Z_scope.

(** ** JavaScript values and the string primitives the sources call *)

Module JS.

(** Values that can show up where TypeScript promises a [string] or a
    [number]: request bodies are not checked against the DTO interfaces at
    run time, and a thrown value has [unknown] type. *)
#[local] Unset Elimination Schemes.
Inductive jsval : Type :=
  | JUndefined
  | JNull
  | JBool (b : bool)
  | JNum (n : Z)
  | JStr (s : string)
  | JArr (xs : list jsval)
  | JObj (fields : list (string * jsval)).
#[local] Set Elimination Schemes.

(** [typeof v === 'string'] *)
Definition is_string (v : jsval) : bool :=
  match v with JStr _ => true | _ => false end.

(** [a ?? b] *)
Definition nullish (a b : jsval) : jsval :=
  match a with JUndefined | JNull => b | _ => a end.

(** White space and line terminators below U+0100, the characters that
    [String.prototype.trim] removes: TAB, LF, VT, FF, CR, SP and NBSP. *)
Definition is_ws (c : ascii) : bool :=
  let n := nat_of_ascii c in
  ((9 <=? n)%nat && (n <=? 13)%nat) || (n =? 32)%nat || (n =? 160)%nat.

Fixpoint trimStart (s : string) : string :=
  match s with
  | String c s' => if is_ws c then trimStart s' else s
  | EmptyString => EmptyString
  end.

(** Removes trailing white space; the recursion keeps a character when it is
    not white space or when something remains behind it. *)
Fixpoint trimEnd (s : string) : string :=
  match s with
  | EmptyString => EmptyString
  | String c s' =>
      match trimEnd s' with
      | EmptyString => if is_ws c then EmptyString else String c EmptyString
      | r => String c r
      end
  end.

(** [s.trim()] *)
Definition trim (s : string) : string := trimEnd (trimStart s).

Definition lower_char (c : ascii) : ascii :=
  let n := nat_of_ascii c in
  if ((65 <=? n)%nat && (n <=? 90)%nat) then ascii_of_nat (n + 32) else c.

Definition upper_char (c : ascii) : ascii :=
  let n := nat_of_ascii c in
  if ((97 <=? n)%nat && (n <=? 122)%nat) then ascii_of_nat (n - 32) else c.

Fixpoint map_chars (f : ascii -> ascii) (s : string) : string :=
  match s with
  | EmptyString => EmptyString
  | String c s' => String (f c) (map_chars f s')
  end.

(** [s.toLowerCase()] and [s.toUpperCase()] on the letters A-Z and a-z.  The
    results are only ever compared with ASCII constants or searched for ASCII
    words.  In the Latin-1 range [toLowerCase] maps no other code unit to an
    ASCII letter, and [toUpperCase] does so only for U+00DF (to SS), which
    cannot produce POST, PATCH or PUT; leaving the other code units alone
    therefore changes none of the comparisons below. *)
Definition toLowerCase : string -> string := map_chars lower_char.
Definition toUpperCase : string -> string := map_chars upper_char.

(** [s.split(sep)] for a separator of one character; never empty. *)
Fixpoint split (sep : ascii) (s : string) : list string :=
  match s with
  | EmptyString => [EmptyString]
  | String c s' =>
      if Ascii.eqb c sep then EmptyString :: split sep s'
      else match split sep s' with
           | p :: ps => String c p :: ps
           | [] => [String c EmptyString]
           end
  end.

(** [s.startsWith(p)] *)
Definition startsWith (p s : string) : bool := String.prefix p s.

(** [s.includes(sub)] *)
Fixpoint includes (sub s : string) : bool :=
  String.prefix sub s ||
  match s with
  | EmptyString => false
  | String _ s' => includes sub s'
  end.

(** [xs.includes(x)] on an array of strings *)
Definition array_includes (xs : list string) (x : string) : bool :=
  existsb (String.eqb x) xs.

(** [xs.find(p)] *)
Definition array_find {A} (p : A -> bool) (xs : list A) : option A :=
  List.find p xs.

(** The double quote (code 34) and the two quote characters of the regular
    expression in [getContentTypeValidationError]. *)
Definition dquote : ascii := ascii_of_nat 34.

Definition is_quote (c : ascii) : bool :=
  Ascii.eqb c dquote || Ascii.eqb c "'"%char.

Definition strip_leading_quote (s : string) : string :=
  match s with
  | String c s' => if is_quote c then s' else s
  | EmptyString => EmptyString
  end.

Fixpoint strip_trailing_quote (s : string) : string :=
  match s with
  | EmptyString => EmptyString
  | String c EmptyString => if is_quote c then EmptyString else s
  | String c s' => String c (strip_trailing_quote s')
  end.

(** The replace call with the pattern [^q|q$] (q a single or double quote,
    global flag) and an empty replacement: the scan removes a quote at index
    0, and a quote at the last index when that index was not already consumed
    by the first alternative. *)
Definition strip_quotes (s : string) : string :=
  strip_trailing_quote (strip_leading_quote s).

(** [String(n)] for an integer *)
Definition String_of_num (n : Z) : string := pretty n.

Fixpoint repeat_char (c : ascii) (n : nat) : string :=
  match n with
  | O => EmptyString
  | S n' => String c (repeat_char c n')
  end.

(** [s.padStart(len, c)] for a filler of one character *)
Definition padStart (len : nat) (c : ascii) (s : string) : string :=
  repeat_char c (len - String.length s) +:+ s.

End JS.

(** ** Content-Type / charset validator ([validate-content-type.ts]) *)

Module ContentType.
Import JS.

Record ErrorBody : Type := mkErrorBody
  { statusCode : Z; error : string; message : string }.

Definition BODY_METHODS : list string := ["POST"; "PATCH"; "PUT"].

Definition CONTENT_TYPE_JSON : string := "application/json".

Definition SUPPORTED_CHARSETS : list string := ["utf-8"; "utf8"].

Definition CONTENT_TYPE_ERROR_BODY : ErrorBody :=
  {| statusCode := 400;
     error := "Bad Request";
     message := "Content-Type must be application/json. Send the request body in JSON format." |}.

Definition CHARSET_ERROR_BODY : ErrorBody :=
  {| statusCode := 400;
     error := "Bad Request";
     message := "Unsupported or invalid encoding. Use an encoding that can be decoded (e.g. UTF-8: Content-Type: application/json; charset=utf-8)." |}.

(** [req.headers['content-type']]: absent, one string, a sequence of
    strings, or a value of some other type. *)
Inductive header : Type :=
  | HAbsent
  | HString (s : string)
  | HArray (xs : list string)
  | HOther.

Record Request : Type := mkRequest
  { method : string; content_type : header }.

(** The [contentType] local of the source. *)
Definition header_text (h : header) : string :=
  match h with
  | HString s => s
  | HArray (x :: _) => x
  | _ => ""
  end.

(** [contentType.split(';')[0].trim().toLowerCase()] *)
Definition normalized (contentType : string) : string :=
  toLowerCase (trim (hd "" (split ";" contentType))).

(** The predicate handed to [find]. *)
Definition is_charset_part (p : string) : bool :=
  startsWith "charset=" (toLowerCase (trim p)).

(** [contentType.split(';').slice(1).find(...)] *)
Definition charsetPart (contentType : string) : option string :=
  array_find is_charset_part (tl (split ";" contentType)).

(** [charsetPart.split('=')[1]], with [''] for [undefined]. *)
Definition rawCharset (part : string) : string :=
  nth 1 (split "=" part) "".

(** The [charset] local: trimmed, lower-cased, then stripped of one leading
    and one trailing quote, in this order. *)
Definition charset_of (part : string) : string :=
  strip_quotes (toLowerCase (trim (rawCharset part))).

Definition getContentTypeValidationError (req : Request) : option ErrorBody :=
  let method := toUpperCase (method req) in
  if negb (array_includes BODY_METHODS method) then None
  else
    let contentType := header_text (content_type req) in
    if String.eqb (trim contentType) "" then Some CONTENT_TYPE_ERROR_BODY
    else if negb (String.eqb (normalized contentType) CONTENT_TYPE_JSON)
    then Some CONTENT_TYPE_ERROR_BODY
    else
      match charsetPart contentType with
      | Some part =>
          let charset := charset_of part in
          if negb (String.eqb charset "")
             && negb (array_includes SUPPORTED_CHARSETS charset)
          then Some CHARSET_ERROR_BODY
          else None
      | None => None
      end.

(** The extraction in the order the specification words it: surrounding
    quotes stripped, then trimmed, then lower-cased. *)
Definition spec_charset_of (part : string) : string :=
  toLowerCase (trim (strip_quotes (rawCharset part))).

Definition post (ct : string) : Request :=
  {| method := "POST"; content_type := HString ct |}.

(** *** Vocabulary of the properties below *)

(** Strings made of white space only. *)
Definition all_ws (s : string) : bool :=
  forallb is_ws (list_ascii_of_string s).

(** What the validator promises for one request, the extraction of the
    charset value being left open so that the wording of the specification
    and the code can be compared. *)
Definition charset_rules (extract : string -> string) (req : Request) : Prop :=
  let ct := header_text (content_type req) in
  (trim ct = EmptyString ->
     getContentTypeValidationError req = Some CONTENT_TYPE_ERROR_BODY)
  /\ (normalized ct <> CONTENT_TYPE_JSON ->
     getContentTypeValidationError req = Some CONTENT_TYPE_ERROR_BODY)
  /\ (normalized ct = CONTENT_TYPE_JSON -> charsetPart ct = None ->
     getContentTypeValidationError req = None)
  /\ (forall part, normalized ct = CONTENT_TYPE_JSON -> charsetPart ct = Some part ->
        (In (extract part) SUPPORTED_CHARSETS ->
           getContentTypeValidationError req = None)
        /\ (extract part = EmptyString ->
           getContentTypeValidationError req = None)
        /\ (extract part <> EmptyString -> ~ In (extract part) SUPPORTED_CHARSETS ->
           getContentTypeValidationError req = Some CHARSET_ERROR_BODY)).

(** A header whose charset value carries blanks inside the quotes. *)
Definition quoted_blank_utf8 : string :=
  "application/json; charset=" +:+ String dquote " utf-8 " +:+ String dquote EmptyString.

End ContentType.


(** ** Exceptions as the filter sees them *)

Module Nest.
Import JS.

(** What [instanceof] can tell about a thrown object.  An [HttpException]
    answers [getStatus()] and [getResponse()]. *)
Inductive exn_kind : Type :=
  | IsHttpException (getStatus : Z) (getResponse : jsval)
  | IsSyntaxError
  | IsOther.

(** A thrown object with the three properties the filter reads.  Each of
    them may be missing or of any type.  Thrown values that are not objects
    ([null], [undefined]) are outside the model. *)
Record Exception : Type := mkException
  { kind : exn_kind;
    message : jsval;
    statusCode : jsval;
    status : jsval }.

Definition BAD_REQUEST : Z := 400.
Definition NOT_FOUND : Z := 404.
Definition INTERNAL_SERVER_ERROR : Z := 500.

(** The body Nest builds for the built-in exceptions raised with a message. *)
Definition http_body (code : Z) (label msg : string) : jsval :=
  JObj [("message", JStr msg); ("error", JStr label); ("statusCode", JNum code)].

(** [new HttpException(response, status)] raised through one of its
    subclasses: the object keeps the status in its [status] property and the
    message in [message]. *)
Definition HttpException (code : Z) (label msg : string) : Exception :=
  {| kind := IsHttpException code (http_body code label msg);
     message := JStr msg;
     statusCode := JUndefined;
     status := JNum code |}.

Definition BadRequestException (msg : string) : Exception :=
  HttpException BAD_REQUEST "Bad Request" msg.

Definition NotFoundException (msg : string) : Exception :=
  HttpException NOT_FOUND "Not Found" msg.

(** [new SyntaxError(msg)], [new TypeError(msg)], [new Error(msg)] *)
Definition SyntaxError (msg : string) : Exception :=
  {| kind := IsSyntaxError; message := JStr msg;
     statusCode := JUndefined; status := JUndefined |}.

Definition TypeError (msg : string) : Exception :=
  {| kind := IsOther; message := JStr msg;
     statusCode := JUndefined; status := JUndefined |}.

Definition Error (msg : string) : Exception :=
  {| kind := IsOther; message := JStr msg;
     statusCode := JUndefined; status := JUndefined |}.

End Nest.

(** ** Body-error normalizer ([json-parse-exception.filter.ts]) *)

Module Filter.
Import JS Nest.

Definition JSON_PARSE_ERROR_MESSAGE : string :=
  "Request body must be valid JSON.".

Definition ENCODING_ERROR_MESSAGE : string :=
  "Request body could not be decoded. Use an encoding that can be decoded (e.g. UTF-8).".

Definition UNEXPECTED_ERROR_MESSAGE : string :=
  "An unexpected error occurred.".

(** [exception instanceof HttpException] and [exception instanceof SyntaxError] *)
Definition instanceof_HttpException (e : Exception) : bool :=
  match kind e with IsHttpException _ _ => true | _ => false end.

Definition instanceof_SyntaxError (e : Exception) : bool :=
  match kind e with IsSyntaxError => true | _ => false end.

(** [typeof x.message === 'string' ? x.message : ''] *)
Definition message_text (e : Exception) : string :=
  match message e with JStr s => s | _ => EmptyString end.

Definition isEncodingError (exception : Exception) : bool :=
  if instanceof_HttpException exception then false
  else
    let lower := toLowerCase (message_text exception) in
    includes "encoding" lower
    || includes "charset" lower
    || includes "decode" lower
    || includes "invalid utf" lower
    || includes "invalid character" lower
    || includes "invalid byte" lower
    || (includes "utf" lower && includes "invalid" lower).

(** [v === n] for a number [n] *)
Definition strict_eq_num (v : jsval) (n : Z) : bool :=
  match v with JNum k => Z.eqb k n | _ => false end.

Definition isJsonParseError (exception : Exception) : bool :=
  if instanceof_SyntaxError exception then true
  else if instanceof_HttpException exception then false
  else
    let status := nullish (statusCode exception) (status exception) in
    let message := message_text exception in
    if strict_eq_num status BAD_REQUEST then
      let lower := toLowerCase message in
      includes "json" lower
      || includes "unexpected token" lower
      || includes "parse" lower
    else false.

(** What the filter writes: [response.status(s).json(b)]. *)
Record Response : Type := mkResponse
  { resp_status : Z; resp_body : jsval }.

Definition error_body (code : Z) (label msg : string) : jsval :=
  JObj [("statusCode", JNum code); ("error", JStr label); ("message", JStr msg)].

(** [JsonParseExceptionFilter.catch] *)
Definition catch (exception : Exception) : Response :=
  if isEncodingError exception then
    {| resp_status := BAD_REQUEST;
       resp_body := error_body BAD_REQUEST "Bad Request" ENCODING_ERROR_MESSAGE |}
  else if isJsonParseError exception then
    {| resp_status := BAD_REQUEST;
       resp_body := error_body BAD_REQUEST "Bad Request" JSON_PARSE_ERROR_MESSAGE |}
  else
    match kind exception with
    | IsHttpException status body =>
        {| resp_status := status; resp_body := body |}
    | _ =>
        {| resp_status := INTERNAL_SERVER_ERROR;
           resp_body := error_body INTERNAL_SERVER_ERROR "Internal Server Error"
                          UNEXPECTED_ERROR_MESSAGE |}
    end.

(** The classification as the specification words it.  Rule 1 reads the
    message and is skipped for exceptions that carry a status and a body;
    rule 2 asks for a syntax error, or for status 400 together with a message
    that mentions JSON parsing. *)
Definition mentions_encoding (e : Exception) : bool :=
  let lower := toLowerCase (message_text e) in
  includes "encoding" lower || includes "charset" lower || includes "decode" lower
  || includes "invalid utf" lower || includes "invalid character" lower
  || includes "invalid byte" lower
  || (includes "utf" lower && includes "invalid" lower).

Definition mentions_json (e : Exception) : bool :=
  let lower := toLowerCase (message_text e) in
  includes "json" lower || includes "unexpected token" lower || includes "parse" lower.

Definition carries_status_400 (e : Exception) : bool :=
  strict_eq_num (nullish (statusCode e) (status e)) 400.

Definition spec_rule1 (e : Exception) : bool :=
  mentions_encoding e && negb (instanceof_HttpException e).

Definition spec_rule2 (e : Exception) : bool :=
  instanceof_SyntaxError e || (carries_status_400 e && mentions_json e).

(** Rule 2 with the gate the code has: the status-and-message test is not
    applied to an [HttpException]. *)
Definition code_rule2 (e : Exception) : bool :=
  instanceof_SyntaxError e
  || (negb (instanceof_HttpException e) && carries_status_400 e && mentions_json e).

Definition encoding_response : Response :=
  {| resp_status := 400;
     resp_body := error_body 400 "Bad Request" ENCODING_ERROR_MESSAGE |}.

Definition json_response : Response :=
  {| resp_status := 400;
     resp_body := error_body 400 "Bad Request" JSON_PARSE_ERROR_MESSAGE |}.

Definition unexpected_response : Response :=
  {| resp_status := 500;
     resp_body := error_body 500 "Internal Server Error" UNEXPECTED_ERROR_MESSAGE |}.

(** *** Vocabulary of the properties below *)

(** The exception the post-route guard raises for a wrong Content-Type. *)
Definition guard_content_type_exception : Exception :=
  BadRequestException (ContentType.message ContentType.CONTENT_TYPE_ERROR_BODY).

End Filter.

(** ** Calendar arithmetic of [Date] (UTC) *)

Module JSDate.
Import JS.

Definition msPerDay : Z := 86400000.

(** Day number of a time value: [floor(t / msPerDay)]. *)
Definition Day (t : Z) : Z := t / msPerDay.

(** Year, month (1-12) and day of month of a day number counted from
    1970-01-01, in the proleptic Gregorian calendar.  The computation works
    on 400-year eras that start on 1 March. *)
Definition civil_from_days (days : Z) : Z * Z * Z :=
  let z := days + 719468 in
  let era := z / 146097 in
  let doe := z - era * 146097 in
  let yoe := (doe - doe / 1460 + doe / 36524 - doe / 146096) / 365 in
  let doy := doe - (365 * yoe + yoe / 4 - yoe / 100) in
  let mp := (5 * doy + 2) / 153 in
  let d := doy - (153 * mp + 2) / 5 + 1 in
  let m := if mp <? 10 then mp + 3 else mp - 9 in
  let y := yoe + era * 400 in
  (if m <=? 2 then y + 1 else y, m, d).

(** The inverse direction: the day number of a calendar date. *)
Definition days_from_civil (y m d : Z) : Z :=
  let y' := if m <=? 2 then y - 1 else y in
  let era := y' / 400 in
  let yoe := y' - era * 400 in
  let mp := if m <=? 2 then m + 9 else m - 3 in
  let doy := (153 * mp + 2) / 5 + d - 1 in
  let doe := yoe * 365 + yoe / 4 - yoe / 100 + doy in
  era * 146097 + doe - 719468.

Definition getUTCFullYear (t : Z) : Z := (civil_from_days (Day t)).1.1.
(** Months count from 0, as in JavaScript. *)
Definition getUTCMonth (t : Z) : Z := (civil_from_days (Day t)).1.2 - 1.
Definition getUTCDate (t : Z) : Z := (civil_from_days (Day t)).2.

(** An instance of [Date.parse] for the date-only form [YYYY-MM-DD], as
    Node evaluates it: four digits, two digits in 01-12, two digits in
    01-31; a day past the end of the month runs over into the next month;
    the result is midnight UTC.  Every other string is unparseable for this
    instance.  The service functions below do not depend on it: they take
    the engine's [Date.parse] as a parameter. *)
Definition digit_val (c : ascii) : option Z :=
  let n := nat_of_ascii c in
  if ((48 <=? n)%nat && (n <=? 57)%nat) then Some (Z.of_nat (n - 48)) else None.

Fixpoint digits_val (acc : Z) (s : string) : option Z :=
  match s with
  | EmptyString => Some acc
  | String c s' =>
      match digit_val c with
      | Some v => digits_val (10 * acc + v) s'
      | None => None
      end
  end.

Definition Date_parse_date_only (s : string) : option Z :=
  if negb (Nat.eqb (String.length s) 10) then None
  else if negb (String.eqb (substring 4 1 s) "-" && String.eqb (substring 7 1 s) "-")
  then None
  else
    match digits_val 0 (substring 0 4 s),
          digits_val 0 (substring 5 2 s),
          digits_val 0 (substring 8 2 s) with
    | Some y, Some m, Some d =>
        if (1 <=? m) && (m <=? 12) && (1 <=? d) && (d <=? 31)
        then Some ((days_from_civil y m 1 + d - 1) * msPerDay)
        else None
    | _, _, _ => None
    end.

End JSDate.

(** ** Item service ([items.service.ts]) *)

Module Items.
Import JS Nest JSDate.

(** Modelled from the spec: the [Item] entity ([item.entity.ts] is not among
    the sources).  A date of birth is a time value or absent; the two
    timestamps are readings of the store's clock.  [name] and [description]
    hold whatever the service assigns, which need not be a string. *)
Record Item : Type := mkItem
  { id : string;
    name : jsval;
    description : jsval;
    dateOfBirth : option Z;
    sex : string;
    phoneNumber : string;
    address : string;
    createdAt : Z;
    updatedAt : Z }.

(** The object literal handed to [itemRepository.create]: an entity that has
    no generated column yet. *)
Record ItemDraft : Type := mkItemDraft
  { d_name : string;
    d_description : jsval;
    d_dateOfBirth : option Z;
    d_sex : string;
    d_phoneNumber : string;
    d_address : string }.

(** Request bodies.  A property that is not there reads as [JUndefined]. *)
Record CreateItemDto : Type := mkCreateItemDto
  { c_name : jsval;
    c_description : jsval;
    c_dateOfBirth : jsval;
    c_sex : jsval;
    c_phoneNumber : jsval;
    c_address : jsval }.

Record UpdateItemDto : Type := mkUpdateItemDto
  { u_name : jsval;
    u_description : jsval;
    u_dateOfBirth : jsval;
    u_sex : jsval;
    u_phoneNumber : jsval;
    u_address : jsval }.

Definition create_dto (n : jsval) : CreateItemDto :=
  {| c_name := n; c_description := JUndefined; c_dateOfBirth := JUndefined;
     c_sex := JUndefined; c_phoneNumber := JUndefined; c_address := JUndefined |}.

Definition empty_update : UpdateItemDto :=
  {| u_name := JUndefined; u_description := JUndefined; u_dateOfBirth := JUndefined;
     u_sex := JUndefined; u_phoneNumber := JUndefined; u_address := JUndefined |}.

(** *** The persistence collaborator *)

Inductive RepoCall : Type :=
  | CallCreate
  | CallSave
  | CallFind
  | CallFindOne (i : string)
  | CallRemove (i : string).

(** Modelled from the spec: the store behind [Repository<Item>] (TypeORM is
    not among the sources): records keyed by identifier, a clock for the two
    timestamps, the number of identifiers handed out, and the calls received
    so far, latest first. *)
Record Repo : Type := mkRepo
  { rows : gmap string Item;
    clock : Z;
    minted : nat;
    calls : list RepoCall }.

Definition empty_repo : Repo :=
  {| rows := ∅; clock := 0; minted := 0; calls := [] |}.

(** What the service takes from its surroundings: the engine's [Date.parse]
    ([None] for [NaN]) and the identifiers the database generates. *)
Record Platform : Type := mkPlatform
  { Date_parse : string -> option Z;
    generate_uuid : nat -> string }.

(** Outcome of an awaited call: a value or a thrown exception. *)
Inductive outcome (A : Type) : Type :=
  | Ok (a : A)
  | Throw (e : Exception).
Arguments Ok {A} a.
Arguments Throw {A} e.

(** Computations that read and write the store and may throw. *)
Definition M (A : Type) : Type := Repo -> outcome A * Repo.

Definition ret {A} (a : A) : M A := fun r => (Ok a, r).
Definition throw {A} (e : Exception) : M A := fun r => (Throw e, r).
Definition bind {A B} (m : M A) (k : A -> M B) : M B :=
  fun r => match m r with
           | (Ok a, r') => k a r'
           | (Throw e, r') => (Throw e, r')
           end.

Notation "'await' x := m 'in' k" := (bind m (fun x => k))
  (at level 10, x name, m at level 100, k at level 200).

Definition log (c : RepoCall) (r : Repo) : Repo :=
  {| rows := rows r; clock := clock r; minted := minted r; calls := c :: calls r |}.

(** Modelled from the spec: [itemRepository.create(fields)] builds the entity
    and touches no record. *)
Definition repo_create (fields : ItemDraft) : M ItemDraft :=
  fun r => (Ok fields, log CallCreate r).

(** Modelled from the spec: [itemRepository.save(entity)] for an entity
    without identifier.  The record is inserted with a generated identifier
    and both timestamps set to the current reading of the clock. *)
Definition repo_save_new (P : Platform) (e : ItemDraft) : M Item :=
  fun r =>
    let item := {| id := generate_uuid P (minted r);
                   name := JStr (d_name e);
                   description := d_description e;
                   dateOfBirth := d_dateOfBirth e;
                   sex := d_sex e;
                   phoneNumber := d_phoneNumber e;
                   address := d_address e;
                   createdAt := clock r;
                   updatedAt := clock r |} in
    (Ok item,
     {| rows := <[id item := item]> (rows r);
        clock := clock r + 1;
        minted := S (minted r);
        calls := CallSave :: calls r |}).

(** Modelled from the spec: [itemRepository.save(entity)] for a loaded
    entity.  The record with that identifier is replaced and its updated-at
    refreshed. *)
Definition repo_save (e : Item) : M Item :=
  fun r =>
    let item := {| id := id e; name := name e; description := description e;
                   dateOfBirth := dateOfBirth e; sex := sex e;
                   phoneNumber := phoneNumber e; address := address e;
                   createdAt := createdAt e;
                   updatedAt := clock r |} in
    (Ok item,
     {| rows := <[id item := item]> (rows r);
        clock := clock r + 1;
        minted := minted r;
        calls := CallSave :: calls r |}).

(** Modelled from the spec: [itemRepository.findOne({ where: { id } })]. *)
Definition repo_findOne (i : string) : M (option Item) :=
  fun r => (Ok (rows r !! i), log (CallFindOne i) r).

(** Modelled from the spec: [itemRepository.remove(entity)] deletes the
    record that has the identifier of the entity. *)
Definition repo_remove (e : Item) : M unit :=
  fun r =>
    (Ok tt,
     {| rows := delete (id e) (rows r);
        clock := clock r;
        minted := minted r;
        calls := CallRemove (id e) :: calls r |}).

Fixpoint insert_by_createdAt (x : Item) (l : list Item) : list Item :=
  match l with
  | [] => [x]
  | y :: l' => if createdAt x <=? createdAt y then x :: l
               else y :: insert_by_createdAt x l'
  end.

(** Modelled from the spec: [itemRepository.find] with ascending created-at
    order. *)
Definition repo_find : M (list Item) :=
  fun r =>
    (Ok (foldr insert_by_createdAt [] (snd <$> map_to_list (rows r))),
     log CallFind r).

(** *** Validators *)

(** The regular expression [UUID_REGEX], anchored at both ends: groups of 8,
    4, 4, 4 and 12 hexadecimal digits in either case, separated by dashes. *)
Definition is_hex_digit (c : ascii) : bool :=
  let n := nat_of_ascii c in
  ((48 <=? n)%nat && (n <=? 57)%nat)
  || ((97 <=? n)%nat && (n <=? 102)%nat)
  || ((65 <=? n)%nat && (n <=? 70)%nat).

(** Consumes exactly [n] hexadecimal digits. *)
Fixpoint hex_run (n : nat) (s : string) : option string :=
  match n with
  | O => Some s
  | S n' =>
      match s with
      | String c s' => if is_hex_digit c then hex_run n' s' else None
      | EmptyString => None
      end
  end.

Definition dash (s : string) : option string :=
  match s with
  | String c s' => if Ascii.eqb c "-" then Some s' else None
  | EmptyString => None
  end.

Definition UUID_REGEX_test (s : string) : bool :=
  match foldl (fun rest step => rest ≫= step) (Some s)
          [hex_run 8; dash; hex_run 4; dash; hex_run 4; dash; hex_run 4; dash;
           hex_run 12] with
  | Some EmptyString => true
  | _ => false
  end.

(** The argument is a path parameter, hence always a string. *)
Definition isValidUuid (value : string) : bool := UUID_REGEX_test value.

Definition INVALID_DATE_OF_BIRTH_MESSAGE : string :=
  "Invalid date of birth; use ISO date format (YYYY-MM-DD).".

Definition NAME_REQUIRED_MESSAGE : string :=
  "name is required and must be a non-empty string".

Definition INVALID_UUID_MESSAGE : string := "Invalid UUID format".

(** The template literal of [findOne], the identifier between double quotes. *)
Definition not_found_message (i : string) : string :=
  "Item with id " +:+ String dquote i +:+ String dquote " not found".

Definition formatDateToISODateString (d : Z) : string :=
  let y := getUTCFullYear d in
  let m := getUTCMonth d + 1 in
  let day := getUTCDate d in
  String_of_num y +:+ "-" +:+ padStart 2 "0" (String_of_num m)
    +:+ "-" +:+ padStart 2 "0" (String_of_num day).

Definition isCalendarDateValid (inputTrimmed : string) (parsed : Z) : bool :=
  String.eqb (formatDateToISODateString parsed) inputTrimmed.

Definition isDateOfBirthProvided (value : jsval) : bool :=
  match value with
  | JStr s => negb (String.eqb (trim s) EmptyString)
  | _ => false
  end.

Definition is_undefined (v : jsval) : bool :=
  match v with JUndefined => true | _ => false end.

(** [v.trim()] on a value that is only promised to be a string: a
    [TypeError] for anything else. *)
Definition call_trim (v : jsval) : M string :=
  match v with
  | JStr s => ret (trim s)
  | _ => throw (TypeError "trim is not a function")
  end.

(** [(value as string).trim()] where the value is known to be a string. *)
Definition as_trimmed (v : jsval) : string :=
  match v with JStr s => trim s | _ => EmptyString end.

Definition set_name (it : Item) (v : jsval) : Item :=
  {| id := id it; name := v; description := description it;
     dateOfBirth := dateOfBirth it; sex := sex it; phoneNumber := phoneNumber it;
     address := address it; createdAt := createdAt it; updatedAt := updatedAt it |}.

Definition set_description (it : Item) (v : jsval) : Item :=
  {| id := id it; name := name it; description := v;
     dateOfBirth := dateOfBirth it; sex := sex it; phoneNumber := phoneNumber it;
     address := address it; createdAt := createdAt it; updatedAt := updatedAt it |}.

Definition set_dateOfBirth (it : Item) (v : option Z) : Item :=
  {| id := id it; name := name it; description := description it;
     dateOfBirth := v; sex := sex it; phoneNumber := phoneNumber it;
     address := address it; createdAt := createdAt it; updatedAt := updatedAt it |}.

Definition set_sex (it : Item) (v : string) : Item :=
  {| id := id it; name := name it; description := description it;
     dateOfBirth := dateOfBirth it; sex := v; phoneNumber := phoneNumber it;
     address := address it; createdAt := createdAt it; updatedAt := updatedAt it |}.

Definition set_phoneNumber (it : Item) (v : string) : Item :=
  {| id := id it; name := name it; description := description it;
     dateOfBirth := dateOfBirth it; sex := sex it; phoneNumber := v;
     address := address it; createdAt := createdAt it; updatedAt := updatedAt it |}.

Definition set_address (it : Item) (v : string) : Item :=
  {| id := id it; name := name it; description := description it;
     dateOfBirth := dateOfBirth it; sex := sex it; phoneNumber := phoneNumber it;
     address := v; createdAt := createdAt it; updatedAt := updatedAt it |}.

(** *** [ItemsService] *)

Section Service.
Variable P : Platform.

Definition parseDateOfBirth (value : jsval) : option Z :=
  match value with
  | JStr s =>
      if String.eqb (trim s) EmptyString then None else Date_parse P (trim s)
  | _ => None
  end.

Definition create (dto : CreateItemDto) : M Item :=
  match c_name dto with
  | JStr name =>
      if String.eqb (trim name) EmptyString
      then throw (BadRequestException NAME_REQUIRED_MESSAGE)
      else
        let dateOfBirth := parseDateOfBirth (c_dateOfBirth dto) in
        await _ :=
          (if isDateOfBirthProvided (c_dateOfBirth dto) then
             let inputTrimmed := as_trimmed (c_dateOfBirth dto) in
             match dateOfBirth with
             | None => throw (BadRequestException INVALID_DATE_OF_BIRTH_MESSAGE)
             | Some d =>
                 if negb (isCalendarDateValid inputTrimmed d)
                 then throw (BadRequestException INVALID_DATE_OF_BIRTH_MESSAGE)
                 else ret tt
             end
           else ret tt) in
        await sex := call_trim (nullish (c_sex dto) (JStr EmptyString)) in
        await phoneNumber := call_trim (nullish (c_phoneNumber dto) (JStr EmptyString)) in
        await address := call_trim (nullish (c_address dto) (JStr EmptyString)) in
        await item :=
          repo_create
            {| d_name := trim name;
               d_description := nullish (c_description dto) (JStr EmptyString);
               d_dateOfBirth := dateOfBirth;
               d_sex := sex;
               d_phoneNumber := phoneNumber;
               d_address := address |} in
        repo_save_new P item
  | _ => throw (BadRequestException NAME_REQUIRED_MESSAGE)
  end.

Definition findAll : M (list Item) := repo_find.

Definition findOne (i : string) : M Item :=
  if negb (isValidUuid i) then throw (BadRequestException INVALID_UUID_MESSAGE)
  else
    await item := repo_findOne i in
    match item with
    | None => throw (NotFoundException (not_found_message i))
    | Some it => ret it
    end.

Definition update (i : string) (dto : UpdateItemDto) : M Item :=
  await item := findOne i in
  let item := if is_undefined (u_name dto) then item
              else set_name item (u_name dto) in
  let item := if is_undefined (u_description dto) then item
              else set_description item (u_description dto) in
  await item :=
    (if is_undefined (u_dateOfBirth dto) then ret item
     else
       let parsed := parseDateOfBirth (u_dateOfBirth dto) in
       await _ :=
         (if isDateOfBirthProvided (u_dateOfBirth dto) then
            let inputTrimmed := as_trimmed (u_dateOfBirth dto) in
            match parsed with
            | None => throw (BadRequestException INVALID_DATE_OF_BIRTH_MESSAGE)
            | Some d =>
                if negb (isCalendarDateValid inputTrimmed d)
                then throw (BadRequestException INVALID_DATE_OF_BIRTH_MESSAGE)
                else ret tt
            end
          else ret tt) in
       ret (set_dateOfBirth item parsed)) in
  await item :=
    (if is_undefined (u_sex dto) then ret item
     else await v := call_trim (u_sex dto) in ret (set_sex item v)) in
  await item :=
    (if is_undefined (u_phoneNumber dto) then ret item
     else await v := call_trim (u_phoneNumber dto) in ret (set_phoneNumber item v)) in
  await item :=
    (if is_undefined (u_address dto) then ret item
     else await v := call_trim (u_address dto) in ret (set_address item v)) in
  repo_save item.

Definition remove (i : string) : M Item :=
  await item := findOne i in
  await _ := repo_remove item in
  ret item.

End Service.

(** *** Runs of the service *)

(** One request handled by the service. *)
Inductive op : Type :=
  | OpCreate (dto : CreateItemDto)
  | OpFindAll
  | OpFindOne (i : string)
  | OpUpdate (i : string) (dto : UpdateItemDto)
  | OpRemove (i : string).

Definition step (P : Platform) (o : op) (r : Repo) : Repo :=
  match o with
  | OpCreate dto => (create P dto r).2
  | OpFindAll => (findAll r).2
  | OpFindOne i => (findOne i r).2
  | OpUpdate i dto => (update P i dto r).2
  | OpRemove i => (remove i r).2
  end.

(** The store after a sequence of requests, starting from the empty store. *)
Definition run (P : Platform) (ops : list op) : Repo :=
  foldl (fun r o => step P o r) empty_repo ops.

(** A persisted name as the data model wants it: a string that is not blank. *)
Definition valid_name (v : jsval) : Prop :=
  exists s, v = JStr s /\ trim s <> EmptyString.

(** A platform for evaluating the service on concrete requests: the
    date-only [Date.parse] above and identifiers numbered from zero. *)
Definition test_uuid (n : nat) : string :=
  "00000000-0000-4000-8000-" +:+ padStart 12 "0" (pretty n).

Definition test_platform : Platform :=
  {| Date_parse := Date_parse_date_only; generate_uuid := test_uuid |}.

(** *** Vocabulary of the properties below *)

(** Strings made of hexadecimal digits only. *)
Fixpoint all_hex (s : string) : bool :=
  match s with
  | EmptyString => true
  | String c s' => is_hex_digit c && all_hex s'
  end.

(** Five groups of 8, 4, 4, 4 and 12 hexadecimal digits joined by dashes. *)
Definition uuid_format (s : string) : Prop :=
  exists a b c d e : string,
    s = a +:+ "-" +:+ b +:+ "-" +:+ c +:+ "-" +:+ d +:+ "-" +:+ e
    /\ (String.length a = 8 /\ String.length b = 4 /\ String.length c = 4
        /\ String.length d = 4 /\ String.length e = 12)%nat
    /\ all_hex a = true /\ all_hex b = true /\ all_hex c = true
    /\ all_hex d = true /\ all_hex e = true.

(** The four conditional blocks of [update], named so that lemmas can speak
    of one block at a time ([update_stages] below shows that [update] is
    their sequence).  First the block of a field that is trimmed on write:
    [sex], [phoneNumber] and [address]. *)
Definition trimmed_stage (v : jsval) (set : Item -> string -> Item) (item : Item)
  : M Item :=
  if is_undefined v then ret item
  else await s := call_trim v in ret (set item s).

(** The block of [update] that handles [dateOfBirth]. *)
Definition dateOfBirth_stage (P : Platform) (v : jsval) (item : Item) : M Item :=
  if is_undefined v then ret item
  else
    let parsed := parseDateOfBirth P v in
    await _ :=
      (if isDateOfBirthProvided v then
         let inputTrimmed := as_trimmed v in
         match parsed with
         | None => throw (BadRequestException INVALID_DATE_OF_BIRTH_MESSAGE)
         | Some d =>
             if negb (isCalendarDateValid inputTrimmed d)
             then throw (BadRequestException INVALID_DATE_OF_BIRTH_MESSAGE)
             else ret tt
         end
       else ret tt) in
    ret (set_dateOfBirth item parsed).

(** Concrete requests for evaluating the service: a store with one record,
    its identifier, partial updates of it and the records they produce. *)
Definition sample_store : Repo :=
  run test_platform [OpCreate (create_dto (JStr "  Test "))].

Definition sample_id : string := test_uuid 0.

Definition sample_patch : UpdateItemDto :=
  {| u_name := JUndefined; u_description := JUndefined;
     u_dateOfBirth := JStr "1985-01-20"; u_sex := JStr " female ";
     u_phoneNumber := JUndefined; u_address := JUndefined |}.

Definition sample_patched : Item :=
  {| id := sample_id; name := JStr "Test"; description := JStr EmptyString;
     dateOfBirth := Some 475027200000; sex := "female";
     phoneNumber := EmptyString; address := EmptyString;
     createdAt := 0; updatedAt := 1 |}.

(** A DTO property that respects its declared type: not there, or a string. *)
Definition string_or_absent (v : jsval) : Prop :=
  v = JUndefined \/ exists s, v = JStr s.

Definition sample_clear_date : UpdateItemDto :=
  {| u_name := JUndefined; u_description := JUndefined;
     u_dateOfBirth := JStr "   "; u_sex := JUndefined;
     u_phoneNumber := JStr "555"; u_address := JUndefined |}.

(** The exception of a refused date of birth. *)
Definition date_error : Exception :=
  BadRequestException "Invalid date of birth; use ISO date format (YYYY-MM-DD).".

(** A create request that carries a name and a date of birth only. *)
Definition dated_dto (n s : string) : CreateItemDto :=
  {| c_name := JStr n; c_description := JUndefined; c_dateOfBirth := JStr s;
     c_sex := JUndefined; c_phoneNumber := JUndefined; c_address := JUndefined |}.

Definition blank_name_patch : UpdateItemDto :=
  {| u_name := JStr EmptyString; u_description := JUndefined;
     u_dateOfBirth := JUndefined; u_sex := JUndefined;
     u_phoneNumber := JUndefined; u_address := JUndefined |}.

Definition blank_named : Item :=
  {| id := sample_id; name := JStr EmptyString; description := JStr EmptyString;
     dateOfBirth := None; sex := EmptyString; phoneNumber := EmptyString;
     address := EmptyString; createdAt := 0; updatedAt := 1 |}.

(** Every record is found under the identifier it carries. *)
Definition keyed_by_id (m : gmap string Item) : Prop :=
  forall k it, m !! k = Some it -> id it = k.

(** What one request can do to the records. *)
Inductive rows_effect (m : gmap string Item) : gmap string Item -> Prop :=
  | effect_none : rows_effect m m
  | effect_put (it : Item) : rows_effect m (<[id it := it]> m)
  | effect_delete (k : string) : rows_effect m (delete k m).

(** Computations that hand the store back as they got it. *)
Definition leaves_store {A} (m : M A) : Prop := forall r, (m r).2 = r.

End Items.

(** ** Middleware, guard and controller *)

Module Pipeline.
Import JS ContentType Nest Filter JSDate Items.

(** What the middleware did with the request: it wrote a response
    ([res.status(s).json(b)]) or it called [next()]. *)
Inductive middleware_result : Type :=
  | Responded (status : Z) (body : ErrorBody)
  | CalledNext.

(** [validateJsonContentType] of
    [validate-json-content-type.middleware.ts] *)
Definition validateJsonContentType (req : Request) : middleware_result :=
  match getContentTypeValidationError req with
  | Some error => Responded (ContentType.statusCode error) error
  | None => CalledNext
  end.

(** [JsonContentTypeGuard.canActivate] of [json-content-type.guard.ts] *)
Definition canActivate (request : Request) : outcome bool :=
  match getContentTypeValidationError request with
  | Some error => Throw (BadRequestException (ContentType.message error))
  | None => Ok true
  end.

(** What a client gets from a handler of [ItemsController]: the payload with
    the status of the route, or the response the global filter writes for the
    exception ([main.ts] installs [JsonParseExceptionFilter] for all
    routes). *)
Inductive reply (A : Type) : Type :=
  | Success (status : Z) (payload : A)
  | Failure (resp : Response).
Arguments Success {A} status payload.
Arguments Failure {A} resp.

Definition CREATED : Z := 201.
Definition OK : Z := 200.

Definition respond {A} (status : Z) (m : M A) : Repo -> reply A * Repo :=
  fun r =>
    match m r with
    | (Ok a, r') => (Success status a, r')
    | (Throw e, r') => (Failure (catch e), r')
    end.

(** The five handlers of [items.controller.ts].  Each delegates to the
    service; [create] carries [HttpCode(HttpStatus.CREATED)], the others have
    the status 200 of their verbs. *)
Definition controller_create (P : Platform) (body : CreateItemDto) :=
  respond CREATED (create P body).

Definition controller_findAll := respond OK findAll.

Definition controller_findOne (i : string) := respond OK (findOne i).

Definition controller_update (P : Platform) (i : string) (body : UpdateItemDto) :=
  respond OK (update P i body).

Definition controller_remove (i : string) := respond OK (remove i).

(** *** Vocabulary of the properties below *)

(** A value on which [(v ?? '').trim()] works: not there, [null], or a
    string. *)
Definition trimmable (v : jsval) : Prop :=
  v = JUndefined \/ v = JNull \/ exists s, v = JStr s.

(** What [(v ?? '').trim()] evaluates to on such a value. *)
Definition trimmed_or_empty (v : jsval) : string :=
  match v with JStr s => trim s | _ => EmptyString end.

Definition well_typed_create (dto : CreateItemDto) : Prop :=
  trimmable (c_sex dto) /\ trimmable (c_phoneNumber dto) /\ trimmable (c_address dto).

Definition well_typed_update (dto : UpdateItemDto) : Prop :=
  string_or_absent (u_sex dto) /\ string_or_absent (u_phoneNumber dto)
  /\ string_or_absent (u_address dto).

(** The body Nest gives a [BadRequestException] and a [NotFoundException]. *)
Definition bad_request (msg : string) : Response :=
  {| resp_status := 400; resp_body := http_body 400 "Bad Request" msg |}.

Definition not_found (msg : string) : Response :=
  {| resp_status := 404; resp_body := http_body 404 "Not Found" msg |}.

(** Occurrence of a character in a string. *)
Fixpoint has_char (c : ascii) (s : string) : bool :=
  match s with
  | EmptyString => false
  | String a s' => Ascii.eqb a c || has_char c s'
  end.


(** The date check that [create] and [update] both contain, as a computation
    of its own. *)
Definition date_check (v : jsval) (parsed : option Z) : M unit :=
  if isDateOfBirthProvided v then
    match parsed with
    | None => throw (BadRequestException INVALID_DATE_OF_BIRTH_MESSAGE)
    | Some d =>
        if negb (isCalendarDateValid (as_trimmed v) d)
        then throw (BadRequestException INVALID_DATE_OF_BIRTH_MESSAGE)
        else ret tt
    end
  else ret tt.

(** A date of birth that the round-trip check lets through: nothing was
    provided, or the trimmed input parses to a time value that formats back
    to the trimmed input. *)
Definition date_acceptable (P : Platform) (v : jsval) : Prop :=
  isDateOfBirthProvided v = false
  \/ exists t, isDateOfBirthProvided v = true
             /\ Date_parse P (as_trimmed v) = Some t
             /\ formatDateToISODateString t = as_trimmed v.

(** The date that is stored for an input that went through the check:
    absent when nothing was provided, otherwise the parse of the trimmed
    input, which formats back to it. *)
Definition checked_date (P : Platform) (v : jsval) (d : option Z) : Prop :=
  (isDateOfBirthProvided v = false /\ d = None)
  \/ exists t, isDateOfBirthProvided v = true /\ d = Some t
             /\ Date_parse P (as_trimmed v) = Some t
             /\ formatDateToISODateString t = as_trimmed v.

(** The three free-text fields are stored trimmed. *)
Definition trimmed_fields (it : Item) : Prop :=
  trim (sex it) = sex it /\ trim (phoneNumber it) = phoneNumber it
  /\ trim (address it) = address it.

(** A stored date of birth is one that the engine parses back from its own
    formatted form. *)
Definition date_round_trips (P : Platform) (it : Item) : Prop :=
  forall t, dateOfBirth it = Some t ->
            Date_parse P (formatDateToISODateString t) = Some t.



(** Two records that differ at most in updated-at. *)
Definition same_but_updatedAt (a b : Item) : Prop :=
  id a = id b /\ name a = name b /\ description a = description b
  /\ dateOfBirth a = dateOfBirth b /\ sex a = sex b
  /\ phoneNumber a = phoneNumber b /\ address a = address b
  /\ createdAt a = createdAt b.

(** Requests used to evaluate the handlers. *)
Definition sample_full_dto : CreateItemDto :=
  {| c_name := JStr " Ada "; c_description := JStr " first ";
     c_dateOfBirth := JStr "1990-05-15"; c_sex := JStr " female ";
     c_phoneNumber := JNull; c_address := JUndefined |}.

Definition sample_created : Item :=
  {| id := sample_id; name := JStr "Ada"; description := JStr " first ";
     dateOfBirth := Some 642729600000; sex := "female";
     phoneNumber := EmptyString; address := EmptyString;
     createdAt := 0; updatedAt := 0 |}.

(** The record of [sample_store]. *)
Definition sample_first : Item :=
  {| id := sample_id; name := JStr "Test"; description := JStr EmptyString;
     dateOfBirth := None; sex := EmptyString; phoneNumber := EmptyString;
     address := EmptyString; createdAt := 0; updatedAt := 0 |}.

Definition sample_bad_date_patch : UpdateItemDto :=
  {| u_name := JStr "Renamed"; u_description := JUndefined;
     u_dateOfBirth := JStr "2025-02-30"; u_sex := JUndefined;
     u_phoneNumber := JUndefined; u_address := JUndefined |}.

Definition sample_null_date_patch : UpdateItemDto :=
  {| u_name := JUndefined; u_description := JUndefined;
     u_dateOfBirth := JNull; u_sex := JUndefined;
     u_phoneNumber := JUndefined; u_address := JUndefined |}.

End Pipeline.

Module ContentTypeTests.
Import JS ContentType.

(** The cases of [validate-content-type.spec.ts]. *)
Example get_no_header :
  getContentTypeValidationError {| method := "GET"; content_type := HAbsent |} = None.
Proof. reflexivity. Qed.

Example post_no_header :
  getContentTypeValidationError {| method := "POST"; content_type := HAbsent |}
  = Some CONTENT_TYPE_ERROR_BODY.
Proof. reflexivity. Qed.

Example post_text_plain :
  getContentTypeValidationError (post "text/plain") = Some CONTENT_TYPE_ERROR_BODY.
Proof. reflexivity. Qed.

Example post_json : getContentTypeValidationError (post "application/json") = None.
Proof. reflexivity. Qed.

Example post_json_UTF8 :
  getContentTypeValidationError (post "application/json; charset=UTF-8") = None.
Proof. reflexivity. Qed.

Example post_json_utf8 :
  getContentTypeValidationError (post "application/json; charset=utf8") = None.
Proof. reflexivity. Qed.

Example post_json_latin1 :
  getContentTypeValidationError (post "application/json; charset=iso-8859-1")
  = Some CHARSET_ERROR_BODY.
Proof. reflexivity. Qed.

Example post_array_header :
  getContentTypeValidationError
    {| method := "POST"; content_type := HArray ["application/json; charset=radnom"] |}
  = Some CHARSET_ERROR_BODY.
Proof. reflexivity. Qed.

Example post_empty_array :
  getContentTypeValidationError {| method := "POST"; content_type := HArray [] |}
  = Some CONTENT_TYPE_ERROR_BODY.
Proof. reflexivity. Qed.

Example post_empty_charset :
  getContentTypeValidationError (post "application/json; charset=") = None.
Proof. reflexivity. Qed.

End ContentTypeTests.

(** ** Properties of the Content-Type / charset validator *)

Module ContentTypeProps.
Import JS ContentType.

Lemma array_includes_In (xs : list string) (x : string) :
  array_includes xs x = true <-> In x xs.
Proof.
  unfold array_includes. rewrite existsb_exists. split.
  - intros (y & Hy & Heq). apply String.eqb_eq in Heq. now subst.
  - intros Hin. exists x. split; [assumption|apply String.eqb_refl].
Qed.

Lemma array_includes_not_In (xs : list string) (x : string) :
  array_includes xs x = false <-> ~ In x xs.
Proof.
  rewrite <- array_includes_In. destruct (array_includes xs x); split; congruence.
Qed.

Lemma body_method_upper (m : string) :
  In m BODY_METHODS -> array_includes BODY_METHODS (toUpperCase m) = true.
Proof.
  unfold BODY_METHODS. simpl. intros [<-|[<-|[<-|[]]]]; reflexivity.
Qed.

Lemma trimEnd_empty_all_ws (s : string) :
  trimEnd s = EmptyString -> all_ws s = true.
Proof.
  induction s as [|c s IH]; [reflexivity|]. cbn [trimEnd].
  destruct (trimEnd s) eqn:Hs; [|discriminate].
  destruct (is_ws c) eqn:Hc; [|discriminate].
  intros _. unfold all_ws in *. cbn. rewrite Hc. now apply IH.
Qed.

Lemma trimStart_all_ws (s : string) :
  all_ws (trimStart s) = true -> all_ws s = true.
Proof.
  induction s as [|c s IH]; [reflexivity|]. cbn [trimStart].
  destruct (is_ws c) eqn:Hc; [|trivial].
  intros H. unfold all_ws in *. cbn. rewrite Hc. now apply IH.
Qed.

Lemma split_all_ws (s : string) :
  all_ws s = true -> split ";" s = [s].
Proof.
  induction s as [|c s IH]; [reflexivity|].
  unfold all_ws. cbn [list_ascii_of_string forallb split].
  intros [Hc Hs]%andb_prop.
  destruct (Ascii.eqb c ";") eqn:Heq.
  - apply Ascii.eqb_eq in Heq. subst c. discriminate.
  - now rewrite (IH Hs).
Qed.

(** A blank header value has a blank first segment: the first branch of the
    source subsumes the second one on such values. *)
Lemma blank_normalized (ct : string) :
  trim ct = EmptyString -> normalized ct = EmptyString.
Proof.
  intros Hblank. unfold normalized.
  assert (Hws : all_ws ct = true)
    by (apply trimStart_all_ws, trimEnd_empty_all_ws, Hblank).
  rewrite (split_all_ws _ Hws). cbn [hd]. now rewrite Hblank.
Qed.

Lemma json_not_blank (ct : string) :
  normalized ct = CONTENT_TYPE_JSON -> String.eqb (trim ct) EmptyString = false.
Proof.
  intros Hn. apply String.eqb_neq. intros Hb.
  apply blank_normalized in Hb. rewrite Hb in Hn. discriminate Hn.
Qed.

Lemma charset_rules_code (req : Request) :
  array_includes BODY_METHODS (toUpperCase (method req)) = true ->
  charset_rules charset_of req.
Proof.
  intros Hm. unfold charset_rules, getContentTypeValidationError.
  rewrite Hm. cbn [negb]. cbv zeta.
  set (ct := header_text (content_type req)).
  split; [|split; [|split]].
  - intros ->. reflexivity.
  - intros Hn. destruct (String.eqb (trim ct) EmptyString); [reflexivity|].
    apply String.eqb_neq in Hn. now rewrite Hn.
  - intros Hn Hc. rewrite (json_not_blank _ Hn), Hn, Hc. reflexivity.
  - intros part Hn Hc. rewrite (json_not_blank _ Hn), Hn, Hc. cbn [String.eqb negb].
    replace (String.eqb CONTENT_TYPE_JSON CONTENT_TYPE_JSON) with true
      by (symmetry; apply String.eqb_refl).
    cbn [negb]. split; [|split].
    + intros Hin. apply array_includes_In in Hin. rewrite Hin.
      now rewrite andb_false_r.
    + intros ->. reflexivity.
    + intros Hne Hnin. apply String.eqb_neq in Hne. rewrite Hne.
      apply array_includes_not_In in Hnin. rewrite Hnin. reflexivity.
Qed.

(** The two extraction orders on the quoted value with inner blanks. *)
Example quoted_blank_utf8_trace :
  charsetPart quoted_blank_utf8
  = Some (" charset=" +:+ String dquote " utf-8 " +:+ String dquote EmptyString)
  /\ (spec_charset_of <$> charsetPart quoted_blank_utf8) = Some "utf-8"
  /\ (charset_of <$> charsetPart quoted_blank_utf8) = Some " utf-8 "
  /\ getContentTypeValidationError (post quoted_blank_utf8) = Some CHARSET_ERROR_BODY.
Proof. repeat split. Qed.

(** C3, as worded: with the charset value extracted by stripping the quotes
    first and trimming afterwards, the rules do not hold for every POST, PATCH
    or PUT request.  For the header [application/json; charset=Q utf-8 Q]
    (Q a double quote) that extraction gives [utf-8], while the validator
    trims before it strips the quotes, keeps the inner blanks and answers with
    the charset error. *)
Lemma C3_spec_extraction_order_counterexample :
  ~ (forall req, In (method req) BODY_METHODS -> charset_rules spec_charset_of req).
Proof.
  intros H.
  destruct (H (post quoted_blank_utf8)) as (_ & _ & _ & Hcs); [cbn; auto|].
  destruct (Hcs (" charset=" +:+ String dquote " utf-8 " +:+ String dquote EmptyString))
    as (Hok & _ & _); [reflexivity|reflexivity|].
  discriminate Hok. cbn. auto.
Qed.

(** C3, amended: for every request whose method is POST, PATCH or PUT, a
    blank header or a first segment other than application/json gives the
    Content-Type error; application/json without a charset parameter gives no
    error; with a charset parameter, whose value is trimmed, lower-cased and
    then stripped of one leading and one trailing quote, the values utf-8 and
    utf8 and the empty value give no error, and every other value gives the
    charset error. *)
Theorem C3_content_type_rules (req : Request) :
  In (method req) BODY_METHODS -> charset_rules charset_of req.
Proof.
  intros Hm. apply charset_rules_code, body_method_upper, Hm.
Qed.

Lemma C3_content_type_rules_witness :
  In (method (post "application/json; charset=UTF-8")) BODY_METHODS
  /\ charset_rules charset_of (post "application/json; charset=UTF-8").
Proof.
  split; [cbn; auto|]. apply C3_content_type_rules. cbn. auto.
Defined.

(** C9, as worded: a method that is not literally one of POST, PATCH, PUT can
    still be validated, because the validator upper-cases the method before
    it looks it up: [post] without a header gets the Content-Type error. *)
Lemma C9_lowercase_method_counterexample :
  ~ (forall (m : string) (h : header),
       ~ In m BODY_METHODS ->
       getContentTypeValidationError {| method := m; content_type := h |} = None).
Proof.
  intros H. specialize (H "post" HAbsent). cbn in H.
  assert (Hn : ~ ("POST" = "post" \/ "PATCH" = "post" \/ "PUT" = "post" \/ False))
    by (intros [?|[?|[?|[]]]]; discriminate).
  specialize (H Hn). discriminate H.
Qed.

(** C9, amended: for every method whose upper-cased form is not one of POST,
    PATCH, PUT, and for every Content-Type header value (absent, a string, a
    sequence of strings or anything else), the validator returns no error. *)
Theorem C9_other_methods_pass (m : string) (h : header) :
  ~ In (toUpperCase m) BODY_METHODS ->
  getContentTypeValidationError {| method := m; content_type := h |} = None.
Proof.
  intros Hn. unfold getContentTypeValidationError. cbn [method].
  apply array_includes_not_In in Hn. now rewrite Hn.
Qed.

Lemma C9_other_methods_pass_witness :
  ~ In (toUpperCase "delete") BODY_METHODS
  /\ getContentTypeValidationError
       {| method := "delete"; content_type := HArray ["text/plain"; "x"] |} = None.
Proof.
  assert (Hn : ~ In (toUpperCase "delete") BODY_METHODS).
  { cbn. intros [?|[?|[?|[]]]]; discriminate. }
  split; [exact Hn|]. apply (C9_other_methods_pass "delete"). exact Hn.
Defined.

(** A header that is absent, an empty sequence, or not a string reads as the
    empty string and is refused. *)
Lemma missing_header_rejected (m : string) (h : header) :
  In m BODY_METHODS ->
  h = HAbsent \/ h = HArray [] \/ h = HOther \/ h = HString EmptyString ->
  getContentTypeValidationError {| method := m; content_type := h |}
  = Some CONTENT_TYPE_ERROR_BODY.
Proof.
  intros Hm Hh.
  apply (proj1 (charset_rules_code {| method := m; content_type := h |}
                  (body_method_upper m Hm))).
  destruct Hh as [->|[->|[->| ->]]]; reflexivity.
Qed.

(** Letters in either case: a character whose lower-case form is known is
    that form or its upper-case variant. *)
Lemma lower_char_cases (c : ascii) :
  c = lower_char c \/ c = upper_char (lower_char c).
Proof.
  destruct c as [[] [] [] [] [] [] [] []];
    first [left; reflexivity | right; reflexivity].
Qed.

Ltac case_variants H :=
  match type of H with
  | lower_char ?c = _ =>
      let E := fresh in
      destruct (lower_char_cases c) as [E|E]; rewrite H in E;
      cbv in E; subst c; clear H
  end.

(** The charset values utf-8 and utf8 are accepted in every mix of upper and
    lower case. *)
Lemma utf8_any_case (m v : string) :
  In m BODY_METHODS ->
  toLowerCase v = "utf-8" \/ toLowerCase v = "utf8" ->
  getContentTypeValidationError
    {| method := m; content_type := HString ("application/json; charset=" +:+ v) |}
  = None.
Proof.
  intros Hm Hv.
  assert (Hup : array_includes BODY_METHODS (toUpperCase m) = true)
    by now apply body_method_upper.
  unfold getContentTypeValidationError. cbn [method content_type header_text].
  rewrite Hup. cbn [negb]. clear Hup Hm.
  destruct Hv as [Hv|Hv].
  - destruct v as [|c1 [|c2 [|c3 [|c4 [|c5 [|c6 v]]]]]]; try discriminate Hv.
    cbn [toLowerCase map_chars] in Hv.
    injection Hv as H1 H2 H3 H4 H5.
    case_variants H1; case_variants H2; case_variants H3; case_variants H4;
      case_variants H5; reflexivity.
  - destruct v as [|c1 [|c2 [|c3 [|c4 [|c5 v]]]]]; try discriminate Hv.
    cbn [toLowerCase map_chars] in Hv.
    injection Hv as H1 H2 H3 H4.
    case_variants H1; case_variants H2; case_variants H3; case_variants H4;
      reflexivity.
Qed.

End ContentTypeProps.

(** ** Properties of the body-error normalizer *)

Module FilterProps.
Import JS Nest Filter.

(** The cases of [json-parse-exception.filter.spec.ts]. *)
Example syntax_error_is_json : catch (SyntaxError "Unexpected token }") = json_response.
Proof. reflexivity. Qed.

Example status_400_json_message :
  catch {| kind := IsOther; message := JStr "Invalid JSON in body";
           statusCode := JNum 400; status := JUndefined |} = json_response.
Proof. reflexivity. Qed.

Example http_exception_forwarded :
  catch {| kind := IsHttpException 422 (JObj [("message", JStr "Custom error")]);
           message := JStr "Http Exception";
           statusCode := JUndefined; status := JNum 422 |}
  = {| resp_status := 422; resp_body := JObj [("message", JStr "Custom error")] |}.
Proof. reflexivity. Qed.

Example other_error_is_500 : catch (Error "Some other error") = unexpected_response.
Proof. reflexivity. Qed.

Example invalid_encoding_error :
  catch (Error "Invalid encoding in request body") = encoding_response.
Proof. reflexivity. Qed.

Example invalid_utf8_error :
  catch (Error "Invalid UTF-8 detected in stream") = encoding_response.
Proof. reflexivity. Qed.

(** The exception the guard raises for an unsupported charset mentions
    encoding, charset and decoding, and is still forwarded with its own body. *)
Example guard_charset_exception_forwarded :
  catch (BadRequestException (ContentType.message ContentType.CHARSET_ERROR_BODY))
  = {| resp_status := 400;
       resp_body := http_body 400 "Bad Request"
                      (ContentType.message ContentType.CHARSET_ERROR_BODY) |}.
Proof. reflexivity. Qed.

Lemma isEncodingError_rule1 (e : Exception) : isEncodingError e = spec_rule1 e.
Proof.
  unfold isEncodingError, spec_rule1, mentions_encoding.
  destruct (instanceof_HttpException e); cbn [negb].
  - now rewrite andb_false_r.
  - now rewrite andb_true_r.
Qed.

Lemma isJsonParseError_rule2 (e : Exception) : isJsonParseError e = code_rule2 e.
Proof.
  unfold isJsonParseError, code_rule2, carries_status_400, mentions_json,
    instanceof_SyntaxError, instanceof_HttpException, BAD_REQUEST.
  destruct (kind e); cbn [negb orb andb]; try reflexivity.
Qed.

Example guard_content_type_exception_trace :
  spec_rule1 guard_content_type_exception = false
  /\ carries_status_400 guard_content_type_exception = true
  /\ mentions_json guard_content_type_exception = true
  /\ catch guard_content_type_exception
     = {| resp_status := 400;
          resp_body := http_body 400 "Bad Request"
                         (ContentType.message ContentType.CONTENT_TYPE_ERROR_BODY) |}.
Proof. repeat split. Qed.

(** C4, as worded: rule 2 does not hold for every exception that carries
    status 400 and a message mentioning JSON.  The exception raised by the
    guard for a wrong Content-Type is such an exception, it is not an
    encoding error, and the filter forwards its own body instead of the
    JSON message. *)
Lemma C4_http_exception_counterexample :
  ~ (forall e : Exception,
       (spec_rule1 e = true -> catch e = encoding_response)
       /\ (spec_rule1 e = false -> spec_rule2 e = true -> catch e = json_response)).
Proof.
  intros H. destruct (H guard_content_type_exception) as [_ H2].
  specialize (H2 eq_refl eq_refl). discriminate H2.
Qed.

(** C4, amended: an exception that is not an [HttpException] and whose
    message mentions one of the encoding words gets 400 with the decoding
    message; otherwise a syntax error, or an exception that is not an
    [HttpException] and carries status 400 with a message mentioning json,
    unexpected token or parse, gets 400 with the JSON message; rule 1 is
    tried first. *)
Theorem C4_classification (e : Exception) :
  (spec_rule1 e = true -> catch e = encoding_response)
  /\ (spec_rule1 e = false -> code_rule2 e = true -> catch e = json_response).
Proof.
  unfold catch. rewrite isEncodingError_rule1, isJsonParseError_rule2.
  split.
  - intros ->. reflexivity.
  - intros -> ->. reflexivity.
Qed.

Lemma C4_classification_witness :
  (spec_rule1 (SyntaxError "could not decode body") = true
   /\ catch (SyntaxError "could not decode body") = encoding_response)
  /\ (spec_rule1 (SyntaxError "Unexpected token }") = false
      /\ code_rule2 (SyntaxError "Unexpected token }") = true
      /\ catch (SyntaxError "Unexpected token }") = json_response).
Proof.
  split.
  - split; [reflexivity|].
    apply (proj1 (C4_classification (SyntaxError "could not decode body"))).
    reflexivity.
  - split; [reflexivity|]. split; [reflexivity|].
    apply (proj2 (C4_classification (SyntaxError "Unexpected token }")));
      reflexivity.
Defined.

(** C6: an exception that is classified neither as an encoding error nor as
    a JSON parse error is answered with its own status and body when it is an
    [HttpException], and with 500 and the fixed message otherwise. *)
Theorem C6_forward_or_500 (e : Exception) :
  isEncodingError e = false -> isJsonParseError e = false ->
  (forall st body, kind e = IsHttpException st body ->
     catch e = {| resp_status := st; resp_body := body |})
  /\ (instanceof_HttpException e = false ->
      catch e = {| resp_status := 500;
                   resp_body := JObj [("statusCode", JNum 500);
                                      ("error", JStr "Internal Server Error");
                                      ("message", JStr "An unexpected error occurred.")] |}).
Proof.
  intros He Hj. unfold catch. rewrite He, Hj. split.
  - intros st body ->. reflexivity.
  - unfold instanceof_HttpException. destruct (kind e); [discriminate| |]; reflexivity.
Qed.

Lemma C6_forward_or_500_witness :
  isEncodingError (NotFoundException "gone") = false
  /\ isJsonParseError (NotFoundException "gone") = false
  /\ catch (NotFoundException "gone")
     = {| resp_status := 404; resp_body := http_body 404 "Not Found" "gone" |}.
Proof.
  split; [reflexivity|]. split; [reflexivity|].
  apply (proj1 (C6_forward_or_500 (NotFoundException "gone") eq_refl eq_refl)).
  reflexivity.
Defined.

(** Every [HttpException] is forwarded, whatever its message says. *)
Lemma http_exception_forwarded_verbatim (e : Exception) (st : Z) (body : jsval) :
  kind e = IsHttpException st body ->
  catch e = {| resp_status := st; resp_body := body |}.
Proof.
  intros Hk. unfold catch, isEncodingError, isJsonParseError,
    instanceof_HttpException, instanceof_SyntaxError. now rewrite Hk.
Qed.

End FilterProps.

(** ** Properties of the item service *)

Module ItemsProps.
Import JS Nest Filter JSDate Items.

(** *** Inversion of the store-and-exception computations *)

Lemma bind_Ok {A B} (m : M A) (k : A -> M B) (r r' : Repo) (b : B) :
  bind m k r = (Ok b, r') ->
  exists a r1, m r = (Ok a, r1) /\ k a r1 = (Ok b, r').
Proof.
  unfold bind. destruct (m r) as [[a|e] r1]; [eauto|discriminate].
Qed.

Lemma bind_eq_Ok {A B} (m : M A) (k : A -> M B) (r r1 : Repo) (a : A) :
  m r = (Ok a, r1) -> bind m k r = k a r1.
Proof. unfold bind. now intros ->. Qed.

Lemma bind_eq_Throw {A B} (m : M A) (k : A -> M B) (r r1 : Repo) (e : Exception) :
  m r = (Throw e, r1) -> bind m k r = (Throw e, r1).
Proof. unfold bind. now intros ->. Qed.

Lemma is_undefined_true (v : jsval) : is_undefined v = true <-> v = JUndefined.
Proof. destruct v; cbn; split; congruence. Qed.

(** *** [findOne] *)

Lemma findOne_invalid (i : string) (r : Repo) :
  isValidUuid i = false ->
  findOne i r = (Throw (BadRequestException INVALID_UUID_MESSAGE), r).
Proof. unfold findOne. now intros ->. Qed.

Lemma findOne_absent (i : string) (r : Repo) :
  isValidUuid i = true -> rows r !! i = None ->
  findOne i r = (Throw (NotFoundException (not_found_message i)), log (CallFindOne i) r).
Proof.
  unfold findOne, bind, repo_findOne. intros -> Hrow. cbn [negb].
  now rewrite Hrow.
Qed.

Lemma findOne_found (i : string) (r : Repo) (it : Item) :
  isValidUuid i = true -> rows r !! i = Some it ->
  findOne i r = (Ok it, log (CallFindOne i) r).
Proof.
  unfold findOne, bind, repo_findOne. intros -> Hrow. cbn [negb].
  now rewrite Hrow.
Qed.

Lemma findOne_Ok (i : string) (r r' : Repo) (it : Item) :
  findOne i r = (Ok it, r') ->
  isValidUuid i = true /\ rows r !! i = Some it /\ r' = log (CallFindOne i) r.
Proof.
  unfold findOne. destruct (isValidUuid i) eqn:Hv; cbn [negb]; [|discriminate].
  unfold bind, repo_findOne. destruct (rows r !! i) as [it'|] eqn:Hrow;
    [|discriminate].
  unfold ret. intros [= <- <-]. auto.
Qed.

(** *** The identifier format *)

Lemma append_cons (c : ascii) (s t : string) :
  String c s +:+ t = String c (s +:+ t).
Proof. reflexivity. Qed.

Lemma append_nil_l (t : string) : EmptyString +:+ t = t.
Proof. reflexivity. Qed.

Lemma append_nil_r (s : string) : s +:+ EmptyString = s.
Proof.
  induction s as [|c s IH]; [reflexivity|]. now rewrite append_cons, IH.
Qed.

Lemma hex_run_Some (n : nat) (s rest : string) :
  hex_run n s = Some rest ->
  exists g, s = g +:+ rest /\ String.length g = n /\ all_hex g = true.
Proof.
  revert s. induction n as [|n IH]; intros s; cbn [hex_run].
  - intros [= ->]. now exists EmptyString.
  - destruct s as [|c s]; [discriminate|].
    destruct (is_hex_digit c) eqn:Hc; [|discriminate].
    intros (g & -> & <- & Hg)%IH. exists (String c g).
    rewrite append_cons. cbn [String.length all_hex]. now rewrite Hc, Hg.
Qed.

Lemma hex_run_app (g rest : string) :
  all_hex g = true -> hex_run (String.length g) (g +:+ rest) = Some rest.
Proof.
  induction g as [|c g IH]; [reflexivity|].
  rewrite append_cons. cbn [String.length all_hex hex_run].
  intros [-> Hg]%andb_prop. now apply IH.
Qed.

Lemma hex_run_group (n : nat) (g rest : string) :
  String.length g = n -> all_hex g = true -> hex_run n (g +:+ rest) = Some rest.
Proof. intros <-. apply hex_run_app. Qed.

Lemma dash_Some (s rest : string) :
  dash s = Some rest -> s = "-" +:+ rest.
Proof.
  destruct s as [|c s]; cbn [dash]; [discriminate|].
  destruct (Ascii.eqb c "-") eqn:Hc; [|discriminate].
  apply Ascii.eqb_eq in Hc. intros [= ->]. now subst.
Qed.

Lemma dash_app (rest : string) : dash ("-" +:+ rest) = Some rest.
Proof. reflexivity. Qed.

Lemma isValidUuid_format (s : string) : isValidUuid s = true <-> uuid_format s.
Proof.
  unfold isValidUuid, UUID_REGEX_test. cbn [foldl mbind option_bind]. split.
  - destruct (hex_run 8 s) as [s1|] eqn:H1; cbn [mbind option_bind]; [|discriminate].
    destruct (dash s1) as [s2|] eqn:D1; cbn [mbind option_bind]; [|discriminate].
    destruct (hex_run 4 s2) as [s3|] eqn:H2; cbn [mbind option_bind]; [|discriminate].
    destruct (dash s3) as [s4|] eqn:D2; cbn [mbind option_bind]; [|discriminate].
    destruct (hex_run 4 s4) as [s5|] eqn:H3; cbn [mbind option_bind]; [|discriminate].
    destruct (dash s5) as [s6|] eqn:D3; cbn [mbind option_bind]; [|discriminate].
    destruct (hex_run 4 s6) as [s7|] eqn:H4; cbn [mbind option_bind]; [|discriminate].
    destruct (dash s7) as [s8|] eqn:D4; cbn [mbind option_bind]; [|discriminate].
    destruct (hex_run 12 s8) as [s9|] eqn:H5; cbn [mbind option_bind]; [|discriminate].
    destruct s9; [|discriminate]. intros _.
    apply hex_run_Some in H1 as (a & -> & La & Ha).
    apply hex_run_Some in H2 as (b & -> & Lb & Hb).
    apply hex_run_Some in H3 as (c & -> & Lc & Hc).
    apply hex_run_Some in H4 as (d & -> & Ld & Hd).
    apply hex_run_Some in H5 as (e & -> & Le & He).
    apply dash_Some in D1, D2, D3, D4. subst.
    exists a, b, c, d, e. rewrite append_nil_r. auto 10.
  - intros (a & b & c & d & e & -> & (La & Lb & Lc & Ld & Le) & Ha & Hb & Hc & Hd & He).
    rewrite (hex_run_group _ a) by assumption.
    cbn [mbind option_bind]. rewrite dash_app. cbn [mbind option_bind].
    rewrite (hex_run_group _ b) by assumption.
    cbn [mbind option_bind]. rewrite dash_app. cbn [mbind option_bind].
    rewrite (hex_run_group _ c) by assumption.
    cbn [mbind option_bind]. rewrite dash_app. cbn [mbind option_bind].
    rewrite (hex_run_group _ d) by assumption.
    cbn [mbind option_bind]. rewrite dash_app. cbn [mbind option_bind].
    assert (Hlast : hex_run 12 e = Some EmptyString).
    { rewrite <- (append_nil_r e). now apply hex_run_group. }
    now rewrite Hlast.
Qed.

(** *** Substring search, for the not-found message *)

Lemma prefix_append (p t : string) : String.prefix p (p +:+ t) = true.
Proof.
  induction p as [|c p IH]; [now destruct t|].
  rewrite append_cons. cbn [String.prefix].
  destruct (ascii_dec c c); [exact IH|congruence].
Qed.

Lemma includes_prefix (sub s : string) :
  String.prefix sub s = true -> includes sub s = true.
Proof. intros H. destruct s; cbn [includes]; now rewrite H. Qed.

Lemma includes_append_l (sub pre s : string) :
  includes sub s = true -> includes sub (pre +:+ s) = true.
Proof.
  intros H. induction pre as [|c pre IH]; [exact H|].
  rewrite append_cons. cbn [includes]. rewrite IH. apply orb_true_r.
Qed.

Lemma not_found_message_mentions (i : string) :
  includes i (not_found_message i) = true.
Proof.
  change (not_found_message i)
    with (("Item with id " +:+ String dquote EmptyString)
            +:+ (i +:+ String dquote " not found")).
  apply includes_append_l, includes_prefix, prefix_append.
Qed.

(** *** Identifier checks of read-one, update and delete *)

Lemma update_findOne_throws (P : Platform) (i : string) (dto : UpdateItemDto)
    (r r' : Repo) (e : Exception) :
  findOne i r = (Throw e, r') -> update P i dto r = (Throw e, r').
Proof. intros H. unfold update. now rewrite (bind_eq_Throw _ _ _ _ _ H). Qed.

Lemma remove_findOne_throws (i : string) (r r' : Repo) (e : Exception) :
  findOne i r = (Throw e, r') -> remove i r = (Throw e, r').
Proof. intros H. unfold remove. now rewrite (bind_eq_Throw _ _ _ _ _ H). Qed.

(** C5: an identifier that is not in the 8-4-4-4-12 hexadecimal format makes
    read-one, update and delete fail with the 400 exception carrying
    [INVALID_UUID_MESSAGE], and the store is left exactly as it was, its list
    of received calls included.  A well-formed identifier without a record
    makes them fail with the 404 exception whose message contains the
    identifier, after a single look-up.  The filter answers with 400 and 404
    respectively. *)
Theorem C5_identifier_checks (P : Platform) (i : string) (dto : UpdateItemDto)
    (r : Repo) :
  (~ uuid_format i ->
     let e := BadRequestException "Invalid UUID format" in
     findOne i r = (Throw e, r)
     /\ update P i dto r = (Throw e, r)
     /\ remove i r = (Throw e, r)
     /\ catch e = {| resp_status := 400;
                     resp_body := http_body 400 "Bad Request" "Invalid UUID format" |})
  /\ (uuid_format i -> rows r !! i = None ->
     let e := NotFoundException (not_found_message i) in
     let r' := log (CallFindOne i) r in
     findOne i r = (Throw e, r')
     /\ update P i dto r = (Throw e, r')
     /\ remove i r = (Throw e, r')
     /\ includes i (not_found_message i) = true
     /\ catch e = {| resp_status := 404;
                     resp_body := http_body 404 "Not Found" (not_found_message i) |}).
Proof.
  split.
  - intros Hbad. assert (Hv : isValidUuid i = false).
    { destruct (isValidUuid i) eqn:Hv; [|reflexivity].
      exfalso. now apply Hbad, isValidUuid_format. }
    pose proof (findOne_invalid i r Hv) as Hf. cbv zeta.
    split; [exact Hf|]. split; [now apply update_findOne_throws|].
    split; [now apply remove_findOne_throws|reflexivity].
  - intros Hok%isValidUuid_format Hrow.
    pose proof (findOne_absent i r Hok Hrow) as Hf. cbv zeta.
    split; [exact Hf|]. split; [now apply update_findOne_throws|].
    split; [now apply remove_findOne_throws|].
    split; [apply not_found_message_mentions|reflexivity].
Qed.

Lemma C5_identifier_checks_witness :
  (~ uuid_format "not-a-uuid"
   /\ findOne "not-a-uuid" empty_repo
      = (Throw (BadRequestException "Invalid UUID format"), empty_repo))
  /\ (uuid_format "00000000-0000-0000-0000-000000000000"
      /\ rows empty_repo !! "00000000-0000-0000-0000-000000000000" = None
      /\ remove "00000000-0000-0000-0000-000000000000" empty_repo
         = (Throw (NotFoundException
                     (not_found_message "00000000-0000-0000-0000-000000000000")),
            log (CallFindOne "00000000-0000-0000-0000-000000000000") empty_repo)).
Proof.
  assert (Hbad : ~ uuid_format "not-a-uuid").
  { intros H%isValidUuid_format. discriminate H. }
  assert (Hok : uuid_format "00000000-0000-0000-0000-000000000000").
  { apply isValidUuid_format. reflexivity. }
  split.
  - split; [exact Hbad|].
    exact (proj1 (proj1 (C5_identifier_checks test_platform "not-a-uuid"
                           empty_update empty_repo) Hbad)).
  - split; [exact Hok|]. split; [reflexivity|].
    exact (proj1 (proj2 (proj2 (proj2 (C5_identifier_checks test_platform
             "00000000-0000-0000-0000-000000000000" empty_update empty_repo)
             Hok eq_refl)))).
Defined.

(** *** The stages of [update] *)

Lemma trimmed_stage_Ok (v : jsval) (set : Item -> string -> Item)
    (item it : Item) (r r' : Repo) :
  trimmed_stage v set item r = (Ok it, r') ->
  r' = r /\ ((v = JUndefined /\ it = item)
             \/ (exists s, v = JStr s /\ it = set item (trim s))).
Proof.
  unfold trimmed_stage, bind, call_trim, ret, throw.
  destruct v; cbn [is_undefined]; intros [= <- <-]; eauto.
Qed.

Lemma trimmed_stage_absent (set : Item -> string -> Item) (item : Item) (r : Repo) :
  trimmed_stage JUndefined set item r = (Ok item, r).
Proof. reflexivity. Qed.

Lemma trimmed_stage_string (s : string) (set : Item -> string -> Item)
    (item : Item) (r : Repo) :
  trimmed_stage (JStr s) set item r = (Ok (set item (trim s)), r).
Proof. reflexivity. Qed.

Lemma dateOfBirth_stage_Ok (P : Platform) (v : jsval) (item it : Item) (r r' : Repo) :
  dateOfBirth_stage P v item r = (Ok it, r') ->
  r' = r /\ ((v = JUndefined /\ it = item)
             \/ (v <> JUndefined /\ it = set_dateOfBirth item (parseDateOfBirth P v))).
Proof.
  unfold dateOfBirth_stage, bind, ret, throw.
  destruct (is_undefined v) eqn:Hu.
  - apply is_undefined_true in Hu. intros [= <- <-]. auto.
  - assert (Hne : v <> JUndefined) by (intros ->; discriminate Hu).
    destruct (isDateOfBirthProvided v).
    + destruct (parseDateOfBirth P v) as [d|]; [|discriminate].
      destruct (negb (isCalendarDateValid (as_trimmed v) d)); [discriminate|].
      intros [= <- <-]. auto.
    + intros [= <- <-]. auto.
Qed.

(** [update] is its source text: the look-up, the two plain assignments, the
    four stages and the save. *)
Lemma update_stages (P : Platform) (i : string) (dto : UpdateItemDto) :
  update P i dto =
  (await item := findOne i in
   let item := if is_undefined (u_name dto) then item
               else set_name item (u_name dto) in
   let item := if is_undefined (u_description dto) then item
               else set_description item (u_description dto) in
   await item := dateOfBirth_stage P (u_dateOfBirth dto) item in
   await item := trimmed_stage (u_sex dto) set_sex item in
   await item := trimmed_stage (u_phoneNumber dto) set_phoneNumber item in
   await item := trimmed_stage (u_address dto) set_address item in
   repo_save item).
Proof. reflexivity. Qed.

Lemma repo_save_eq (e it : Item) (r r' : Repo) :
  repo_save e r = (Ok it, r') ->
  id it = id e /\ name it = name e /\ description it = description e
  /\ dateOfBirth it = dateOfBirth e /\ sex it = sex e
  /\ phoneNumber it = phoneNumber e /\ address it = address e
  /\ createdAt it = createdAt e /\ updatedAt it = clock r
  /\ rows r' = <[id e := it]> (rows r).
Proof. unfold repo_save. intros [= <- <-]. cbn. auto 12. Qed.

(** Everything a successful [update] tells about its result. *)
Lemma update_Ok (P : Platform) (i : string) (dto : UpdateItemDto)
    (r r' : Repo) (it' : Item) :
  update P i dto r = (Ok it', r') ->
  exists it0 it,
    isValidUuid i = true /\ rows r !! i = Some it0
    /\ repo_save it (log (CallFindOne i) r) = (Ok it', r')
    /\ id it = id it0 /\ createdAt it = createdAt it0
    /\ name it = (if is_undefined (u_name dto) then name it0 else u_name dto)
    /\ description it = (if is_undefined (u_description dto) then description it0
                         else u_description dto)
    /\ dateOfBirth it = (if is_undefined (u_dateOfBirth dto) then dateOfBirth it0
                         else parseDateOfBirth P (u_dateOfBirth dto))
    /\ ((u_sex dto = JUndefined /\ sex it = sex it0)
        \/ exists s, u_sex dto = JStr s /\ sex it = trim s)
    /\ ((u_phoneNumber dto = JUndefined /\ phoneNumber it = phoneNumber it0)
        \/ exists s, u_phoneNumber dto = JStr s /\ phoneNumber it = trim s)
    /\ ((u_address dto = JUndefined /\ address it = address it0)
        \/ exists s, u_address dto = JStr s /\ address it = trim s).
Proof.
  rewrite update_stages.
  intros (it0 & r0 & Hfind & H)%bind_Ok. cbv zeta in H.
  apply bind_Ok in H as (it1 & r1 & Hdob & H).
  apply bind_Ok in H as (it2 & r2 & Hsex & H).
  apply bind_Ok in H as (it3 & r3 & Hphone & H).
  apply bind_Ok in H as (it4 & r4 & Haddr & Hsave).
  apply findOne_Ok in Hfind as (Hv & Hrow & ->).
  apply dateOfBirth_stage_Ok in Hdob as (-> & Hdob).
  apply trimmed_stage_Ok in Hsex as (-> & Hsex).
  apply trimmed_stage_Ok in Hphone as (-> & Hphone).
  apply trimmed_stage_Ok in Haddr as (-> & Haddr).
  exists it0, it4. split; [exact Hv|]. split; [exact Hrow|]. split; [exact Hsave|].
  clear Hsave Hrow Hv.
  assert (Hd : is_undefined (u_dateOfBirth dto) = true /\ it1 =
               (if is_undefined (u_description dto)
                then (if is_undefined (u_name dto) then it0 else set_name it0 (u_name dto))
                else set_description
                       (if is_undefined (u_name dto) then it0 else set_name it0 (u_name dto))
                       (u_description dto))
            \/ is_undefined (u_dateOfBirth dto) = false /\ it1 =
               set_dateOfBirth
                 (if is_undefined (u_description dto)
                  then (if is_undefined (u_name dto) then it0 else set_name it0 (u_name dto))
                  else set_description
                         (if is_undefined (u_name dto) then it0 else set_name it0 (u_name dto))
                         (u_description dto))
                 (parseDateOfBirth P (u_dateOfBirth dto))).
  { destruct Hdob as [[Hu ->]|[Hu ->]]; [left|right]; split; try reflexivity.
    - now apply is_undefined_true.
    - destruct (is_undefined (u_dateOfBirth dto)) eqn:E; [|reflexivity].
      now apply is_undefined_true in E. }
  clear Hdob.
  destruct Hd as [[-> ->]|[-> ->]];
    destruct Hsex as [[Hs ->]|(ss & Hs & ->)];
    destruct Hphone as [[Hp ->]|(sp & Hp & ->)];
    destruct Haddr as [[Ha ->]|(sa & Ha & ->)];
    destruct (is_undefined (u_name dto)), (is_undefined (u_description dto));
    cbn [id name description dateOfBirth sex phoneNumber address createdAt
         set_name set_description set_dateOfBirth set_sex set_phoneNumber set_address];
    repeat split; eauto.
Qed.

(** C7: after a successful update, every field that the partial input does
    not carry has the value of the loaded record, both in the returned record
    and in the store; the identifier and created-at are those of the loaded
    record; the fields that are carried take the supplied value (trimmed for
    sex, phone number and address, parsed for the date of birth); no other
    record of the store changes. *)
Theorem C7_update_frame (P : Platform) (i : string) (dto : UpdateItemDto)
    (r r' : Repo) (it' : Item) :
  update P i dto r = (Ok it', r') ->
  exists it0,
    rows r !! i = Some it0
    /\ id it' = id it0 /\ createdAt it' = createdAt it0
    /\ (u_name dto = JUndefined -> name it' = name it0)
    /\ (u_description dto = JUndefined -> description it' = description it0)
    /\ (u_dateOfBirth dto = JUndefined -> dateOfBirth it' = dateOfBirth it0)
    /\ (u_sex dto = JUndefined -> sex it' = sex it0)
    /\ (u_phoneNumber dto = JUndefined -> phoneNumber it' = phoneNumber it0)
    /\ (u_address dto = JUndefined -> address it' = address it0)
    /\ (u_name dto <> JUndefined -> name it' = u_name dto)
    /\ (u_description dto <> JUndefined -> description it' = u_description dto)
    /\ (u_dateOfBirth dto <> JUndefined ->
        dateOfBirth it' = parseDateOfBirth P (u_dateOfBirth dto))
    /\ (forall s, u_sex dto = JStr s -> sex it' = trim s)
    /\ (forall s, u_phoneNumber dto = JStr s -> phoneNumber it' = trim s)
    /\ (forall s, u_address dto = JStr s -> address it' = trim s)
    /\ rows r' !! id it0 = Some it'
    /\ (forall k, k <> id it0 -> rows r' !! k = rows r !! k).
Proof.
  intros (it0 & it & _ & Hrow & Hsave & Hid & Hcr & Hn & Hd & Hb & Hs & Hp & Ha)%update_Ok.
  apply repo_save_eq in Hsave
    as (Sid & Sn & Sd & Sb & Ss & Sp & Sa & Scr & _ & Srows).
  exists it0. rewrite Sid, Sn, Sd, Sb, Ss, Sp, Sa, Scr, Srows, Hid, Hcr, Hn, Hd, Hb.
  cbn [log rows].
  split; [exact Hrow|]. split; [reflexivity|]. split; [reflexivity|].
  split; [now intros ->|]. split; [now intros ->|]. split; [now intros ->|].
  split. { intros E. destruct Hs as [[_ ->]|(s & E' & _)]; [reflexivity|congruence]. }
  split. { intros E. destruct Hp as [[_ ->]|(s & E' & _)]; [reflexivity|congruence]. }
  split. { intros E. destruct Ha as [[_ ->]|(s & E' & _)]; [reflexivity|congruence]. }
  split. { intros E. destruct (is_undefined (u_name dto)) eqn:U; [|reflexivity].
           now apply is_undefined_true in U. }
  split. { intros E. destruct (is_undefined (u_description dto)) eqn:U; [|reflexivity].
           now apply is_undefined_true in U. }
  split. { intros E. destruct (is_undefined (u_dateOfBirth dto)) eqn:U; [|reflexivity].
           now apply is_undefined_true in U. }
  split. { intros s E. destruct Hs as [[E' _]|(s' & E' & ->)]; congruence. }
  split. { intros s E. destruct Hp as [[E' _]|(s' & E' & ->)]; congruence. }
  split. { intros s E. destruct Ha as [[E' _]|(s' & E' & ->)]; congruence. }
  split; [apply lookup_insert_eq|].
  intros k Hk. now apply lookup_insert_ne.
Qed.

Lemma C7_update_frame_witness :
  update test_platform sample_id sample_patch sample_store
  = (Ok sample_patched, (update test_platform sample_id sample_patch sample_store).2)
  /\ exists it0,
       rows sample_store !! sample_id = Some it0
       /\ id sample_patched = id it0
       /\ createdAt sample_patched = createdAt it0
       /\ name sample_patched = name it0.
Proof.
  assert (H : update test_platform sample_id sample_patch sample_store
              = (Ok sample_patched,
                 (update test_platform sample_id sample_patch sample_store).2))
    by (vm_compute; reflexivity).
  split; [exact H|].
  destruct (C7_update_frame _ _ _ _ _ _ H) as (it0 & Hrow & Hid & Hcr & Hn & _).
  exists it0. split; [exact Hrow|]. split; [exact Hid|]. split; [exact Hcr|].
  apply Hn. reflexivity.
Defined.

(** *** Blank date of birth on update *)

Lemma trimmed_stage_typed (v : jsval) (set : Item -> string -> Item)
    (item : Item) (r : Repo) :
  string_or_absent v ->
  exists it, trimmed_stage v set item r = (Ok it, r)
             /\ (it = item \/ exists s, it = set item s).
Proof.
  intros [->|(s & ->)].
  - exists item. split; [reflexivity|now left].
  - exists (set item (trim s)). split; [reflexivity|right; eauto].
Qed.

Lemma dateOfBirth_stage_blank (P : Platform) (s : string) (item : Item) (r : Repo) :
  trim s = EmptyString ->
  dateOfBirth_stage P (JStr s) item r = (Ok (set_dateOfBirth item None), r).
Proof.
  intros Hb. unfold dateOfBirth_stage, bind, ret, parseDateOfBirth,
    isDateOfBirthProvided. cbn [is_undefined]. now rewrite Hb.
Qed.

(** C10: an update of an existing record whose [dateOfBirth] is an empty or
    white-space-only string, the other supplied fields being strings,
    succeeds, and the record it returns and stores has no date of birth,
    whatever date was stored before. *)
Theorem C10_blank_date_clears (P : Platform) (i : string) (dto : UpdateItemDto)
    (r : Repo) (it0 : Item) (s : string) :
  uuid_format i -> rows r !! i = Some it0 ->
  u_dateOfBirth dto = JStr s -> trim s = EmptyString ->
  string_or_absent (u_sex dto) -> string_or_absent (u_phoneNumber dto) ->
  string_or_absent (u_address dto) ->
  exists it' r',
    update P i dto r = (Ok it', r')
    /\ dateOfBirth it' = None
    /\ rows r' !! id it0 = Some it'.
Proof.
  intros Hv%isValidUuid_format Hrow Hd Hb Hs Hp Ha.
  rewrite update_stages.
  rewrite (bind_eq_Ok _ _ _ _ _ (findOne_found i r it0 Hv Hrow)). cbv zeta.
  set (it1 := if is_undefined (u_description dto) then _ else _).
  assert (Hid1 : id it1 = id it0).
  { subst it1. now destruct (is_undefined (u_description dto)),
      (is_undefined (u_name dto)). }
  rewrite Hd.
  rewrite (bind_eq_Ok _ _ _ _ _ (dateOfBirth_stage_blank P s it1 _ Hb)).
  set (it2 := set_dateOfBirth it1 None).
  destruct (trimmed_stage_typed _ set_sex it2 (log (CallFindOne i) r) Hs)
    as (it3 & E3 & H3).
  rewrite (bind_eq_Ok _ _ _ _ _ E3).
  destruct (trimmed_stage_typed _ set_phoneNumber it3 (log (CallFindOne i) r) Hp)
    as (it4 & E4 & H4).
  rewrite (bind_eq_Ok _ _ _ _ _ E4).
  destruct (trimmed_stage_typed _ set_address it4 (log (CallFindOne i) r) Ha)
    as (it5 & E5 & H5).
  rewrite (bind_eq_Ok _ _ _ _ _ E5).
  assert (H : dateOfBirth it5 = None /\ id it5 = id it0).
  { destruct H3 as [->|(? & ->)], H4 as [->|(? & ->)], H5 as [->|(? & ->)];
      cbn [dateOfBirth id set_sex set_phoneNumber set_address set_dateOfBirth it2];
      auto. }
  destruct H as [Hnone Hid5].
  unfold repo_save. eexists _, _. split; [reflexivity|].
  cbn [dateOfBirth rows id]. split; [exact Hnone|].
  rewrite Hid5. apply lookup_insert_eq.
Qed.

Lemma C10_blank_date_clears_witness :
  exists it' r',
    update test_platform sample_id sample_clear_date
      (update test_platform sample_id sample_patch sample_store).2 = (Ok it', r')
    /\ dateOfBirth it' = None
    /\ rows r' !! id sample_patched = Some it'.
Proof.
  apply (C10_blank_date_clears test_platform sample_id sample_clear_date
           (update test_platform sample_id sample_patch sample_store).2
           sample_patched "   ").
  - apply isValidUuid_format. reflexivity.
  - vm_compute. reflexivity.
  - reflexivity.
  - reflexivity.
  - left. reflexivity.
  - right. exists "555". reflexivity.
  - left. reflexivity.
Defined.

(** *** Delete *)

Lemma remove_found (i : string) (r : Repo) (it : Item) :
  isValidUuid i = true -> rows r !! i = Some it ->
  remove i r = (Ok it, (repo_remove it (log (CallFindOne i) r)).2).
Proof.
  intros Hv Hrow. unfold remove.
  rewrite (bind_eq_Ok _ _ _ _ _ (findOne_found i r it Hv Hrow)).
  reflexivity.
Qed.

(** C8: for a well-formed identifier under which the store holds the record
    carrying that identifier, delete returns that record as it was loaded,
    and on the resulting store read-one and a second delete fail with the 404
    exception, which the filter answers with status 404. *)
Theorem C8_delete_twice (i : string) (r : Repo) (it : Item) :
  uuid_format i -> rows r !! i = Some it -> id it = i ->
  exists r',
    remove i r = (Ok it, r')
    /\ rows r' !! i = None
    /\ (remove i r').1 = Throw (NotFoundException (not_found_message i))
    /\ (findOne i r').1 = Throw (NotFoundException (not_found_message i))
    /\ resp_status (catch (NotFoundException (not_found_message i))) = 404.
Proof.
  intros Hv%isValidUuid_format Hrow Hid.
  exists (repo_remove it (log (CallFindOne i) r)).2.
  assert (Hgone : rows (repo_remove it (log (CallFindOne i) r)).2 !! i = None).
  { cbn [repo_remove snd rows log]. rewrite Hid. apply lookup_delete_eq. }
  split; [now apply remove_found|]. split; [exact Hgone|].
  pose proof (findOne_absent i _ Hv Hgone) as Hf.
  split; [now rewrite (remove_findOne_throws _ _ _ _ Hf)|].
  split; [now rewrite Hf|reflexivity].
Qed.

Lemma C8_delete_twice_witness :
  exists r',
    remove sample_id sample_store
    = (Ok {| id := sample_id; name := JStr "Test"; description := JStr EmptyString;
             dateOfBirth := None; sex := EmptyString; phoneNumber := EmptyString;
             address := EmptyString; createdAt := 0; updatedAt := 0 |}, r')
    /\ (remove sample_id r').1 = Throw (NotFoundException (not_found_message sample_id)).
Proof.
  destruct (C8_delete_twice sample_id sample_store
              {| id := sample_id; name := JStr "Test"; description := JStr EmptyString;
                 dateOfBirth := None; sex := EmptyString; phoneNumber := EmptyString;
                 address := EmptyString; createdAt := 0; updatedAt := 0 |})
    as (r' & H1 & _ & H2 & _).
  - apply isValidUuid_format. reflexivity.
  - vm_compute. reflexivity.
  - reflexivity.
  - exists r'. split; assumption.
Defined.

(** *** Date of birth *)

(** The check that [create] and [update] both make after parsing, on the
    block of [update]. *)
Lemma dateOfBirth_stage_unparseable (P : Platform) (s : string) (item : Item) (r : Repo) :
  trim s <> EmptyString -> Date_parse P (trim s) = None ->
  dateOfBirth_stage P (JStr s) item r = (Throw date_error, r).
Proof.
  intros Hb%String.eqb_neq Hp.
  unfold dateOfBirth_stage, bind, parseDateOfBirth, isDateOfBirthProvided.
  cbn [is_undefined]. now rewrite Hb, Hp.
Qed.

Lemma dateOfBirth_stage_mismatch (P : Platform) (s : string) (t : Z)
    (item : Item) (r : Repo) :
  trim s <> EmptyString -> Date_parse P (trim s) = Some t ->
  formatDateToISODateString t <> trim s ->
  dateOfBirth_stage P (JStr s) item r = (Throw date_error, r).
Proof.
  intros Hb%String.eqb_neq Hp Hf%String.eqb_neq.
  unfold dateOfBirth_stage, bind, parseDateOfBirth, isDateOfBirthProvided,
    isCalendarDateValid, as_trimmed.
  cbn [is_undefined]. now rewrite Hb, Hp, Hf.
Qed.

Lemma dateOfBirth_stage_roundtrip (P : Platform) (s : string) (t : Z)
    (item : Item) (r : Repo) :
  trim s <> EmptyString -> Date_parse P (trim s) = Some t ->
  formatDateToISODateString t = trim s ->
  dateOfBirth_stage P (JStr s) item r = (Ok (set_dateOfBirth item (Some t)), r).
Proof.
  intros Hb%String.eqb_neq Hp Hf.
  unfold dateOfBirth_stage, bind, parseDateOfBirth, isDateOfBirthProvided,
    isCalendarDateValid, as_trimmed.
  cbn [is_undefined]. rewrite Hb, Hp, Hf, String.eqb_refl. reflexivity.
Qed.

(** [update] of an existing record with a non-blank date of birth. *)
Lemma update_date_rejected (P : Platform) (i : string) (dto : UpdateItemDto)
    (r : Repo) (it0 : Item) (s : string) :
  uuid_format i -> rows r !! i = Some it0 ->
  u_dateOfBirth dto = JStr s -> trim s <> EmptyString ->
  (Date_parse P (trim s) = None
   \/ exists t, Date_parse P (trim s) = Some t /\ formatDateToISODateString t <> trim s) ->
  update P i dto r = (Throw date_error, log (CallFindOne i) r)
  /\ rows (log (CallFindOne i) r) = rows r.
Proof.
  intros Hv%isValidUuid_format Hrow Hd Hb Hbad. split; [|reflexivity].
  rewrite update_stages.
  rewrite (bind_eq_Ok _ _ _ _ _ (findOne_found i r it0 Hv Hrow)). cbv zeta.
  rewrite Hd. apply bind_eq_Throw.
  destruct Hbad as [Hn|(t & Hp & Hf)].
  - now apply dateOfBirth_stage_unparseable.
  - now apply (dateOfBirth_stage_mismatch P s t).
Qed.

Lemma update_date_accepted (P : Platform) (i : string) (r : Repo) (it0 : Item)
    (s : string) (t : Z) :
  uuid_format i -> rows r !! i = Some it0 ->
  trim s <> EmptyString -> Date_parse P (trim s) = Some t ->
  formatDateToISODateString t = trim s ->
  exists it' r',
    update P i {| u_name := JUndefined; u_description := JUndefined;
                  u_dateOfBirth := JStr s; u_sex := JUndefined;
                  u_phoneNumber := JUndefined; u_address := JUndefined |} r
    = (Ok it', r')
    /\ dateOfBirth it' = Some t
    /\ rows r' !! id it0 = Some it'.
Proof.
  intros Hv%isValidUuid_format Hrow Hb Hp Hf.
  rewrite update_stages.
  rewrite (bind_eq_Ok _ _ _ _ _ (findOne_found i r it0 Hv Hrow)).
  cbv zeta. cbn [u_name u_description u_dateOfBirth u_sex u_phoneNumber u_address
                 is_undefined].
  rewrite (bind_eq_Ok _ _ _ _ _ (dateOfBirth_stage_roundtrip P s t it0 _ Hb Hp Hf)).
  rewrite !(bind_eq_Ok _ _ _ _ _ (trimmed_stage_absent _ _ _)).
  unfold repo_save. eexists _, _. split; [reflexivity|].
  cbn [dateOfBirth rows id set_dateOfBirth]. split; [reflexivity|].
  apply lookup_insert_eq.
Qed.

Lemma create_date_rejected (P : Platform) (r : Repo) (n s : string) :
  trim n <> EmptyString -> trim s <> EmptyString ->
  (Date_parse P (trim s) = None
   \/ exists t, Date_parse P (trim s) = Some t /\ formatDateToISODateString t <> trim s) ->
  create P (dated_dto n s) r = (Throw date_error, r).
Proof.
  intros Hn%String.eqb_neq Hb%String.eqb_neq Hbad.
  unfold create, dated_dto, bind, parseDateOfBirth, isDateOfBirthProvided,
    isCalendarDateValid, as_trimmed.
  cbn [c_name c_dateOfBirth]. rewrite Hn, Hb. cbn [negb].
  destruct Hbad as [->|(t & -> & Hf%String.eqb_neq)]; [reflexivity|].
  now rewrite Hf.
Qed.

Lemma create_date_accepted (P : Platform) (r : Repo) (n s : string) (t : Z) :
  trim n <> EmptyString -> trim s <> EmptyString ->
  Date_parse P (trim s) = Some t -> formatDateToISODateString t = trim s ->
  exists it r',
    create P (dated_dto n s) r = (Ok it, r')
    /\ dateOfBirth it = Some t
    /\ name it = JStr (trim n)
    /\ rows r' !! id it = Some it.
Proof.
  intros Hn%String.eqb_neq Hb%String.eqb_neq Hp Hf.
  unfold create, dated_dto, bind, parseDateOfBirth, isDateOfBirthProvided,
    isCalendarDateValid, as_trimmed, call_trim, nullish, ret, repo_create,
    repo_save_new.
  cbn [c_name c_dateOfBirth c_sex c_phoneNumber c_address c_description].
  rewrite Hn, Hb, Hp, Hf, String.eqb_refl. cbn [negb].
  eexists _, _. split; [reflexivity|].
  cbn [dateOfBirth name rows id d_name d_dateOfBirth].
  split; [reflexivity|]. split; [reflexivity|]. apply lookup_insert_eq.
Qed.

(** An absent or blank date of birth is stored as no date. *)
Lemma create_without_date (P : Platform) (r : Repo) (n : string) (v : jsval) :
  trim n <> EmptyString ->
  v = JUndefined \/ (exists s, v = JStr s /\ trim s = EmptyString) ->
  exists it r',
    create P {| c_name := JStr n; c_description := JUndefined; c_dateOfBirth := v;
                c_sex := JUndefined; c_phoneNumber := JUndefined;
                c_address := JUndefined |} r
    = (Ok it, r')
    /\ dateOfBirth it = None
    /\ rows r' !! id it = Some it.
Proof.
  intros Hn%String.eqb_neq Hv.
  unfold create, bind, parseDateOfBirth, isDateOfBirthProvided, call_trim,
    nullish, ret, repo_create, repo_save_new.
  cbn [c_name c_dateOfBirth c_sex c_phoneNumber c_address c_description].
  rewrite Hn.
  destruct Hv as [->|(s & -> & ->)]; cbn [negb String.eqb];
    (eexists _, _; split; [reflexivity|];
     cbn [dateOfBirth rows id d_dateOfBirth]; split; [reflexivity|];
     apply lookup_insert_eq).
Qed.

(** The dates of the service tests, on the date-only [Date.parse]. *)
Example create_1990_01_15 :
  exists it r',
    create test_platform (dated_dto "Test" "1990-01-15") empty_repo = (Ok it, r')
    /\ dateOfBirth it = Some 632361600000
    /\ civil_from_days (Day 632361600000) = (1990, 1, 15).
Proof.
  destruct (create_date_accepted test_platform empty_repo "Test" "1990-01-15"
              632361600000) as (it & r' & H & Hd & _);
    [discriminate|discriminate|reflexivity|reflexivity|].
  exists it, r'. auto.
Qed.

Example create_1989_11_31 :
  create test_platform (dated_dto "Test" "1989-11-31") empty_repo
  = (Throw date_error, empty_repo)
  /\ (formatDateToISODateString <$> Date_parse_date_only "1989-11-31")
     = Some "1989-12-01".
Proof. split; reflexivity. Qed.

Example create_2025_02_30 :
  create test_platform (dated_dto "Test" "2025-02-30") empty_repo
  = (Throw date_error, empty_repo).
Proof. reflexivity. Qed.

Example create_slashes :
  create test_platform (dated_dto "Test" "31/12/1999") empty_repo
  = (Throw date_error, empty_repo).
Proof. reflexivity. Qed.

Example create_not_a_date :
  create test_platform (dated_dto "Test" "not-a-date") empty_repo
  = (Throw date_error, empty_repo).
Proof. reflexivity. Qed.

(** C2, at a real calendar date in YYYY-MM-DD form whose year is below 1000:
    on every engine that parses 0999-01-01 as the time value of that day at
    midnight UTC, the formatter writes the year without padding (999-01-01),
    the round trip fails, and [create] and [update] answer with the date
    error instead of storing the date. *)
Theorem C2_year_below_1000_rejected (P : Platform) (i : string) (r : Repo)
    (it0 : Item) :
  Date_parse P "0999-01-01" = Some (-30641760000000) ->
  uuid_format i -> rows r !! i = Some it0 ->
  civil_from_days (Day (-30641760000000)) = (999, 1, 1)
  /\ formatDateToISODateString (-30641760000000) = "999-01-01"
  /\ create P (dated_dto "Test" "0999-01-01") r = (Throw date_error, r)
  /\ update P i {| u_name := JUndefined; u_description := JUndefined;
                   u_dateOfBirth := JStr "0999-01-01"; u_sex := JUndefined;
                   u_phoneNumber := JUndefined; u_address := JUndefined |} r
     = (Throw date_error, log (CallFindOne i) r)
  /\ catch date_error
     = {| resp_status := 400;
          resp_body := http_body 400 "Bad Request"
            "Invalid date of birth; use ISO date format (YYYY-MM-DD)." |}.
Proof.
  intros Hp Hv Hrow.
  split; [reflexivity|]. split; [reflexivity|]. split.
  - apply create_date_rejected; [discriminate|discriminate|].
    right. exists (-30641760000000). split; [exact Hp|discriminate].
  - split; [|reflexivity].
    apply (update_date_rejected P i _ r it0 "0999-01-01"); auto; try discriminate.
    right. exists (-30641760000000). split; [exact Hp|discriminate].
Qed.

Lemma C2_year_below_1000_rejected_witness :
  Date_parse test_platform "0999-01-01" = Some (-30641760000000)
  /\ create test_platform (dated_dto "Test" "0999-01-01") sample_store
     = (Throw date_error, sample_store).
Proof.
  split; [reflexivity|].
  refine (proj1 (proj2 (proj2 (C2_year_below_1000_rejected test_platform sample_id
            sample_store
            {| id := sample_id; name := JStr "Test"; description := JStr EmptyString;
               dateOfBirth := None; sex := EmptyString; phoneNumber := EmptyString;
               address := EmptyString; createdAt := 0; updatedAt := 0 |}
            _ _ _)))).
  - reflexivity.
  - apply isValidUuid_format. reflexivity.
  - vm_compute. reflexivity.
Defined.

(** *** Stored names *)

Lemma trimEnd_idempotent (s : string) : trimEnd (trimEnd s) = trimEnd s.
Proof.
  induction s as [|c s IH]; [reflexivity|]. cbn [trimEnd].
  destruct (trimEnd s) as [|d t] eqn:E.
  - destruct (is_ws c) eqn:Hc; [reflexivity|]. cbn [trimEnd]. now rewrite Hc.
  - change (trimEnd (String c (String d t)))
      with (match trimEnd (String d t) with
            | EmptyString => if is_ws c then EmptyString else String c EmptyString
            | String a r => String c (String a r)
            end).
    now rewrite IH.
Qed.

Lemma trimStart_head (s : string) :
  match trimStart s with
  | EmptyString => True
  | String c _ => is_ws c = false
  end.
Proof.
  induction s as [|c s IH]; [exact I|]. cbn [trimStart].
  destruct (is_ws c) eqn:Hc; [exact IH|exact Hc].
Qed.

Lemma trimStart_trimEnd (s : string) :
  match s with EmptyString => True | String c _ => is_ws c = false end ->
  trimStart (trimEnd s) = trimEnd s.
Proof.
  destruct s as [|c s]; [reflexivity|]. intros Hc. cbn [trimEnd].
  destruct (trimEnd s); [rewrite Hc|]; cbn [trimStart]; now rewrite Hc.
Qed.

(** Trimming twice is trimming once. *)
Lemma trim_idempotent (s : string) : trim (trim s) = trim s.
Proof.
  unfold trim. rewrite (trimStart_trimEnd _ (trimStart_head s)).
  apply trimEnd_idempotent.
Qed.

(** What [create] guarantees about the name it stores. *)
Lemma create_stores_valid_name (P : Platform) (dto : CreateItemDto)
    (r r' : Repo) (it : Item) :
  create P dto r = (Ok it, r') ->
  valid_name (name it) /\ rows r' !! id it = Some it
  /\ exists s, c_name dto = JStr s /\ name it = JStr (trim s).
Proof.
  unfold create. destruct (c_name dto) as [| | | |s| |]; try discriminate.
  destruct (String.eqb (trim s) EmptyString) eqn:Hs; [discriminate|].
  apply String.eqb_neq in Hs.
  intros (? & r1 & _ & H)%bind_Ok.
  apply bind_Ok in H as (sx & r2 & _ & H).
  apply bind_Ok in H as (ph & r3 & _ & H).
  apply bind_Ok in H as (ad & r4 & _ & H).
  apply bind_Ok in H as (dr & r5 & Hc & H).
  unfold repo_create in Hc. injection Hc as <- <-.
  unfold repo_save_new in H. injection H as <- <-.
  cbn [name rows id d_name]. split.
  - exists (trim s). split; [reflexivity|]. now rewrite trim_idempotent.
  - split; [apply lookup_insert_eq|]. eauto.
Qed.

(** [create] refuses every name that is not a non-blank string. *)
Lemma create_rejects_invalid_name (P : Platform) (dto : CreateItemDto) (r : Repo) :
  ~ valid_name (c_name dto) ->
  create P dto r = (Throw (BadRequestException NAME_REQUIRED_MESSAGE), r).
Proof.
  intros Hn. unfold create. destruct (c_name dto) as [| | | |s| |]; try reflexivity.
  destruct (String.eqb (trim s) EmptyString) eqn:Hs; [reflexivity|].
  exfalso. apply Hn. exists s. split; [reflexivity|]. now apply String.eqb_neq.
Qed.

(** [update] assigns a supplied name as it comes. *)
Lemma update_name_unchecked (P : Platform) (i : string) (r : Repo) (it0 : Item)
    (v : jsval) :
  uuid_format i -> rows r !! i = Some it0 -> v <> JUndefined ->
  exists it' r',
    update P i {| u_name := v; u_description := JUndefined;
                  u_dateOfBirth := JUndefined; u_sex := JUndefined;
                  u_phoneNumber := JUndefined; u_address := JUndefined |} r
    = (Ok it', r')
    /\ name it' = v
    /\ rows r' !! id it0 = Some it'.
Proof.
  intros Hv%isValidUuid_format Hrow Hne.
  rewrite update_stages.
  rewrite (bind_eq_Ok _ _ _ _ _ (findOne_found i r it0 Hv Hrow)).
  cbv zeta. cbn [u_name u_description u_dateOfBirth u_sex u_phoneNumber u_address].
  assert (Hu : is_undefined v = false).
  { destruct (is_undefined v) eqn:E; [|reflexivity].
    now apply is_undefined_true in E. }
  rewrite Hu. cbn [is_undefined].
  unfold dateOfBirth_stage. cbn [is_undefined].
  rewrite (bind_eq_Ok _ _ _ _ _ (eq_refl : ret _ _ = (Ok _, _))).
  rewrite !(bind_eq_Ok _ _ _ _ _ (trimmed_stage_absent _ _ _)).
  unfold repo_save. eexists _, _. split; [reflexivity|].
  cbn [name rows id set_name]. split; [reflexivity|]. apply lookup_insert_eq.
Qed.

Lemma blank_name_invalid : ~ valid_name (JStr EmptyString).
Proof. intros (s & [= <-] & H). now apply H. Qed.

(** C1, at the failing input: after one create and one update that supplies
    the empty string as name, the update has succeeded and the record in the
    store has the empty name, which is not a valid name. *)
Theorem C1_update_stores_blank_name :
  (update test_platform sample_id blank_name_patch sample_store).1 = Ok blank_named
  /\ rows (run test_platform
             [OpCreate (create_dto (JStr "  Test "));
              OpUpdate sample_id blank_name_patch]) !! sample_id
     = Some blank_named
  /\ ~ valid_name (name blank_named).
Proof.
  split; [vm_compute; reflexivity|].
  split; [vm_compute; reflexivity|exact blank_name_invalid].
Qed.

(** Hence the names in the stores that create and update can produce are not
    all valid. *)
Lemma stored_names_not_all_valid :
  ~ (forall (P : Platform) (ops : list op) (k : string) (it : Item),
       rows (run P ops) !! k = Some it -> valid_name (name it)).
Proof.
  intros H.
  apply blank_name_invalid.
  apply (H test_platform
           [OpCreate (create_dto (JStr "  Test ")); OpUpdate sample_id blank_name_patch]
           sample_id blank_named).
  vm_compute. reflexivity.
Qed.

(** *** Records are stored under their own identifier *)

Lemma rows_effect_keyed (m m' : gmap string Item) :
  rows_effect m m' -> keyed_by_id m -> keyed_by_id m'.
Proof.
  intros [|it|k] Hm k' it'.
  - apply Hm.
  - destruct (decide (id it = k')) as [<-|Hne].
    + rewrite lookup_insert_eq. now intros [= <-].
    + rewrite lookup_insert_ne by assumption. apply Hm.
  - destruct (decide (k = k')) as [<-|Hne].
    + now rewrite lookup_delete_eq.
    + rewrite lookup_delete_ne by assumption. apply Hm.
Qed.

Lemma leaves_ret {A} (a : A) : leaves_store (ret a).
Proof. now intros r. Qed.

Lemma leaves_throw {A} (e : Exception) : leaves_store (throw (A := A) e).
Proof. now intros r. Qed.

Lemma leaves_bind {A B} (m : M A) (k : A -> M B) :
  leaves_store m -> (forall a, leaves_store (k a)) -> leaves_store (bind m k).
Proof.
  intros Hm Hk r. unfold bind. specialize (Hm r).
  destruct (m r) as [[a|e] r1]; cbn [snd] in *; subst r1; [apply Hk|reflexivity].
Qed.

Lemma leaves_call_trim (v : jsval) : leaves_store (call_trim v).
Proof. destruct v; first [apply leaves_ret|apply leaves_throw]. Qed.

Lemma leaves_trimmed_stage (v : jsval) (set : Item -> string -> Item) (item : Item) :
  leaves_store (trimmed_stage v set item).
Proof.
  unfold trimmed_stage. destruct (is_undefined v); [apply leaves_ret|].
  apply leaves_bind; [apply leaves_call_trim|intros; apply leaves_ret].
Qed.

Lemma leaves_date_check (v : jsval) (parsed : option Z) :
  leaves_store
    (if isDateOfBirthProvided v then
       match parsed with
       | None => throw (BadRequestException INVALID_DATE_OF_BIRTH_MESSAGE)
       | Some d =>
           if negb (isCalendarDateValid (as_trimmed v) d)
           then throw (BadRequestException INVALID_DATE_OF_BIRTH_MESSAGE)
           else ret tt
       end
     else ret tt).
Proof.
  destruct (isDateOfBirthProvided v); [|apply leaves_ret].
  destruct parsed as [d|]; [|apply leaves_throw].
  destruct (negb _); [apply leaves_throw|apply leaves_ret].
Qed.

Lemma leaves_dateOfBirth_stage (P : Platform) (v : jsval) (item : Item) :
  leaves_store (dateOfBirth_stage P v item).
Proof.
  unfold dateOfBirth_stage. destruct (is_undefined v); [apply leaves_ret|].
  apply leaves_bind; [apply leaves_date_check|intros; apply leaves_ret].
Qed.

Lemma bind_leaves {A B} (m : M A) (k : A -> M B) (r : Repo) :
  leaves_store m -> (bind m k r).2 = r \/ exists a, bind m k r = k a r.
Proof.
  intros Hm. unfold bind. specialize (Hm r).
  destruct (m r) as [[a|e] r1]; cbn [snd] in *; subst r1; eauto.
Qed.

Lemma findOne_rows (i : string) (r : Repo) : rows (findOne i r).2 = rows r.
Proof.
  unfold findOne, bind, repo_findOne.
  destruct (negb (isValidUuid i)); [reflexivity|].
  now destruct (rows r !! i).
Qed.

Lemma update_effect (P : Platform) (i : string) (dto : UpdateItemDto) (r : Repo) :
  rows_effect (rows r) (rows (update P i dto r).2).
Proof.
  rewrite update_stages. unfold bind at 1.
  pose proof (findOne_rows i r) as Hrows.
  destruct (findOne i r) as [[it|e] r1]; cbn [snd] in *;
    [|rewrite Hrows; constructor].
  cbv zeta.
  match goal with
  | |- context [bind ?m ?k r1] =>
      destruct (bind_leaves m k r1 (leaves_dateOfBirth_stage _ _ _)) as [->|(? & ->)];
        [rewrite Hrows; constructor|]
  end.
  do 3 match goal with
  | |- context [bind ?m ?k r1] =>
      destruct (bind_leaves m k r1 (leaves_trimmed_stage _ _ _)) as [->|(? & ->)];
        [rewrite Hrows; constructor|]
  end.
  unfold repo_save. cbn [snd rows id]. rewrite Hrows.
  match goal with
  | |- rows_effect _ (<[_ := ?it]> _) => apply (effect_put (rows r) it)
  end.
Qed.

Lemma remove_effect (i : string) (r : Repo) :
  rows_effect (rows r) (rows (remove i r).2).
Proof.
  unfold remove, bind at 1.
  pose proof (findOne_rows i r) as Hrows.
  destruct (findOne i r) as [[it|e] r1]; cbn [snd] in *;
    [|rewrite Hrows; constructor].
  unfold bind, repo_remove, ret. cbn [snd rows]. rewrite Hrows. constructor.
Qed.

Lemma create_effect (P : Platform) (dto : CreateItemDto) (r : Repo) :
  rows_effect (rows r) (rows (create P dto r).2).
Proof.
  unfold create. destruct (c_name dto) as [| | | |s| |]; try constructor.
  destruct (String.eqb (trim s) EmptyString); [constructor|]. cbv zeta.
  match goal with
  | |- context [bind ?m ?k r] =>
      destruct (bind_leaves m k r (leaves_date_check _ _)) as [->|(? & ->)];
        [constructor|]
  end.
  do 3 match goal with
  | |- context [bind ?m ?k r] =>
      destruct (bind_leaves m k r (leaves_call_trim _)) as [->|(? & ->)];
        [constructor|]
  end.
  unfold bind, repo_create, repo_save_new. cbn [snd rows id log].
  match goal with
  | |- rows_effect _ (<[_ := ?it]> _) => apply (effect_put (rows r) it)
  end.
Qed.

Lemma step_effect (P : Platform) (o : op) (r : Repo) :
  rows_effect (rows r) (rows (step P o r)).
Proof.
  destruct o as [dto| |i|i dto|i]; cbn [step].
  - apply create_effect.
  - constructor.
  - rewrite findOne_rows. constructor.
  - apply update_effect.
  - apply remove_effect.
Qed.

(** In every store the service can produce, each record is found under the
    identifier it carries. *)
Lemma run_keyed_by_id (P : Platform) (ops : list op) :
  keyed_by_id (rows (run P ops)).
Proof.
  unfold run. induction ops as [|o ops IH] using rev_ind.
  - intros k it. cbn. now rewrite lookup_empty.
  - rewrite foldl_snoc. eapply rows_effect_keyed; [apply step_effect|exact IH].
Qed.

End ItemsProps.

(** ** Further properties of the validator, the middleware, the guard and the filter *)

Module BoundaryProps.
Import JS ContentType Nest Filter Items Pipeline.
Import ContentTypeProps FilterProps.

(** *** Letter case of the method *)

Lemma upper_lower_char (c : ascii) : upper_char (lower_char c) = upper_char c.
Proof. destruct c as [[] [] [] [] [] [] [] []]; reflexivity. Qed.

Lemma upper_upper_char (c : ascii) : upper_char (upper_char c) = upper_char c.
Proof. destruct c as [[] [] [] [] [] [] [] []]; reflexivity. Qed.

Lemma toUpperCase_toLowerCase (s : string) :
  toUpperCase (toLowerCase s) = toUpperCase s.
Proof.
  induction s as [|c s IH]; [reflexivity|].
  cbn [toUpperCase toLowerCase map_chars] in *. now rewrite upper_lower_char, IH.
Qed.

Lemma toUpperCase_idempotent (s : string) :
  toUpperCase (toUpperCase s) = toUpperCase s.
Proof.
  induction s as [|c s IH]; [reflexivity|].
  cbn [toUpperCase map_chars] in *. now rewrite upper_upper_char, IH.
Qed.

(** X1: the validator does not look at the letter case of the method: the
    request with the method upper-cased, and the one with the method
    lower-cased, get the answer of the original request. *)
Theorem validator_ignores_method_case (m : string) (h : header) :
  getContentTypeValidationError {| method := toUpperCase m; content_type := h |}
  = getContentTypeValidationError {| method := m; content_type := h |}
  /\ getContentTypeValidationError {| method := toLowerCase m; content_type := h |}
     = getContentTypeValidationError {| method := m; content_type := h |}.
Proof.
  unfold getContentTypeValidationError. cbn [method content_type].
  now rewrite toUpperCase_idempotent, toUpperCase_toLowerCase.
Qed.

(** *** Letter case and blanks of the media type *)

Lemma split_without_sep (sep : ascii) (s : string) :
  has_char sep s = false -> split sep s = [s].
Proof.
  induction s as [|c s IH]; [reflexivity|]. cbn [has_char split].
  intros [Hc Hs]%orb_false_elim. rewrite Hc. now rewrite (IH Hs).
Qed.

Lemma has_char_trimEnd (c : ascii) (s : string) :
  is_ws c = false -> has_char c (trimEnd s) = false -> has_char c s = false.
Proof.
  intros Hc. induction s as [|a s IH]; [reflexivity|]. cbn [trimEnd has_char].
  destruct (trimEnd s) as [|b t] eqn:E.
  - destruct (is_ws a) eqn:Ha.
    + intros _. rewrite (IH eq_refl), orb_false_r.
      apply Ascii.eqb_neq. intros ->. congruence.
    + cbn [has_char]. rewrite orb_false_r. intros ->. now rewrite (IH eq_refl).
  - cbn [has_char]. intros [-> Ht]%orb_false_elim. apply IH. exact Ht.
Qed.

Lemma has_char_trimStart (c : ascii) (s : string) :
  is_ws c = false -> has_char c (trimStart s) = false -> has_char c s = false.
Proof.
  intros Hc. induction s as [|a s IH]; [reflexivity|]. cbn [trimStart].
  destruct (is_ws a) eqn:Ha; [|trivial].
  intros H. cbn [has_char]. rewrite (IH H), orb_false_r.
  apply Ascii.eqb_neq. intros ->. congruence.
Qed.

Lemma has_semicolon_lower (s : string) :
  has_char ";" (toLowerCase s) = false -> has_char ";" s = false.
Proof.
  induction s as [|a s IH]; [reflexivity|].
  cbn [toLowerCase map_chars has_char].
  intros [Ha Hs]%orb_false_elim. rewrite (IH Hs), orb_false_r.
  apply Ascii.eqb_neq. intros ->. discriminate Ha.
Qed.

(** X2: for POST, PATCH and PUT, a Content-Type that reads application/json
    once surrounding white space is removed and letters are lower-cased is
    accepted, whatever the case and the blanks around it. *)
Theorem media_type_any_case_and_padding (m s : string) :
  In m BODY_METHODS ->
  toLowerCase (trim s) = "application/json" ->
  getContentTypeValidationError {| method := m; content_type := HString s |} = None.
Proof.
  intros Hm Hs.
  assert (Hsep : has_char ";" s = false).
  { apply has_char_trimStart; [reflexivity|].
    apply has_char_trimEnd; [reflexivity|].
    apply has_semicolon_lower. fold (trim s). now rewrite Hs. }
  pose proof (split_without_sep ";" s Hsep) as Hsplit.
  destruct (charset_rules_code {| method := m; content_type := HString s |}
              (body_method_upper m Hm)) as (_ & _ & Hjson & _).
  apply Hjson; cbn [content_type header_text].
  - unfold normalized. rewrite Hsplit. exact Hs.
  - unfold charsetPart. now rewrite Hsplit.
Qed.

Lemma media_type_any_case_and_padding_witness :
  In "PATCH" BODY_METHODS
  /\ toLowerCase (trim "  Application/JSON ") = "application/json"
  /\ getContentTypeValidationError
       {| method := "PATCH"; content_type := HString "  Application/JSON " |} = None.
Proof.
  assert (Hm : In "PATCH" BODY_METHODS) by (cbn; auto).
  split; [exact Hm|]. split; [reflexivity|].
  apply (media_type_any_case_and_padding "PATCH" "  Application/JSON " Hm).
  reflexivity.
Defined.

(** *** The answers of the validator, the middleware and the guard *)

Lemma validator_answers_cases (req : Request) :
  getContentTypeValidationError req = None
  \/ getContentTypeValidationError req = Some CONTENT_TYPE_ERROR_BODY
  \/ getContentTypeValidationError req = Some CHARSET_ERROR_BODY.
Proof.
  unfold getContentTypeValidationError.
  destruct (negb (array_includes BODY_METHODS _)); [now left|].
  destruct (String.eqb _ EmptyString); [right; now left|].
  destruct (negb (String.eqb _ CONTENT_TYPE_JSON)); [right; now left|].
  destruct (charsetPart _) as [part|]; [|now left].
  destruct (_ && _); [right; now right|now left].
Qed.

(** X3: the validator has three answers only: no error, the Content-Type
    error body and the charset error body; both bodies carry status 400. *)
Theorem validator_answers (req : Request) :
  getContentTypeValidationError req = None
  \/ (getContentTypeValidationError req = Some CONTENT_TYPE_ERROR_BODY
      /\ ContentType.statusCode CONTENT_TYPE_ERROR_BODY = 400)
  \/ (getContentTypeValidationError req = Some CHARSET_ERROR_BODY
      /\ ContentType.statusCode CHARSET_ERROR_BODY = 400).
Proof.
  destruct (validator_answers_cases req) as [H|[H|H]]; auto.
Qed.

(** X4: the middleware and the guard always agree.  Either the validator
    finds nothing, the middleware calls next and the guard lets the request
    pass; or the validator returns an error body, the middleware answers 400
    with that body, the guard throws a [BadRequestException] with the message
    of that body, and the filter answers that exception with status 400 and
    the same message, although the message itself speaks of JSON or of
    encodings. *)
Theorem middleware_and_guard_agree (req : Request) :
  (getContentTypeValidationError req = None
   /\ validateJsonContentType req = CalledNext
   /\ canActivate req = Ok true)
  \/ (exists body,
        getContentTypeValidationError req = Some body
        /\ validateJsonContentType req = Responded 400 body
        /\ canActivate req = Throw (BadRequestException (ContentType.message body))
        /\ catch (BadRequestException (ContentType.message body))
           = bad_request (ContentType.message body)).
Proof.
  unfold validateJsonContentType, canActivate.
  destruct (validator_answers_cases req) as [->|[->| ->]].
  - now left.
  - right. exists CONTENT_TYPE_ERROR_BODY. repeat split.
  - right. exists CHARSET_ERROR_BODY. repeat split.
Qed.

(** *** The answers of the filter *)

(** X5: the filter has four answers only.  An [HttpException] gets its own
    status and body, whatever its message; every other exception gets one of
    the three fixed responses, so that nothing of its message or of its other
    properties reaches the client. *)
Theorem filter_answers (e : Exception) :
  match kind e with
  | IsHttpException st body => catch e = {| resp_status := st; resp_body := body |}
  | _ => catch e = encoding_response \/ catch e = json_response
         \/ catch e = unexpected_response
  end.
Proof.
  destruct (kind e) as [st body| |] eqn:Hk.
  - now apply http_exception_forwarded_verbatim.
  - unfold catch. destruct (isEncodingError e); [now left|].
    destruct (isJsonParseError e); [right; now left|].
    rewrite Hk. right; now right.
  - unfold catch. destruct (isEncodingError e); [now left|].
    destruct (isJsonParseError e); [right; now left|].
    rewrite Hk. right; now right.
Qed.

End BoundaryProps.

(** ** Further properties of the item service and of the controller *)

Module ServiceProps.
Import JS ContentType Nest Filter JSDate Items Pipeline.
Import ItemsProps.

(** *** Identifiers *)

Lemma length_append (a b : string) :
  String.length (a +:+ b) = (String.length a + String.length b)%nat.
Proof.
  induction a as [|c a IH]; [reflexivity|].
  rewrite append_cons. cbn [String.length]. now rewrite IH.
Qed.

(** X6: an identifier that passes the format check has exactly 36
    characters; in particular the empty string never passes. *)
Theorem valid_uuid_length (s : string) :
  isValidUuid s = true -> String.length s = 36%nat.
Proof.
  intros (a & b & c & d & e & -> & (La & Lb & Lc & Ld & Le) & _)%isValidUuid_format.
  rewrite !length_append, La, Lb, Lc, Ld, Le. reflexivity.
Qed.

Lemma valid_uuid_length_witness :
  isValidUuid "ABCDEFab-1111-2222-3333-0123456789ef" = true
  /\ String.length "ABCDEFab-1111-2222-3333-0123456789ef" = 36%nat.
Proof.
  split; [reflexivity|].
  apply (valid_uuid_length "ABCDEFab-1111-2222-3333-0123456789ef"). reflexivity.
Defined.







(** *** Inversion of failing computations *)

Lemma bind_Throw {A B} (m : M A) (k : A -> M B) (r r' : Repo) (e : Exception) :
  bind m k r = (Throw e, r') ->
  m r = (Throw e, r')
  \/ exists a r1, m r = (Ok a, r1) /\ k a r1 = (Throw e, r').
Proof.
  unfold bind. destruct (m r) as [[a|e0] r1]; [eauto|]. intros [= <- <-]. now left.
Qed.

Lemma call_trim_Ok (v : jsval) (r r' : Repo) (s : string) :
  call_trim v r = (Ok s, r') -> r' = r /\ exists x, v = JStr x /\ s = trim x.
Proof.
  destruct v; cbn [call_trim]; unfold ret, throw; intros [= <- <-]; eauto.
Qed.

Lemma call_trim_Throw (v : jsval) (r r' : Repo) (e : Exception) :
  call_trim v r = (Throw e, r') ->
  r' = r /\ is_string v = false /\ instanceof_HttpException e = false.
Proof.
  destruct v; cbn [call_trim]; unfold ret, throw; intros [= <- <-]; auto.
Qed.

Lemma nullish_trimmable (v : jsval) (x : string) :
  nullish v (JStr EmptyString) = JStr x ->
  trimmable v /\ trimmed_or_empty v = trim x.
Proof.
  unfold trimmable.
  destruct v; cbn [nullish trimmed_or_empty]; intros [= <-]; split; eauto.
Qed.

Lemma nullish_not_string (v : jsval) :
  is_string (nullish v (JStr EmptyString)) = false -> ~ trimmable v.
Proof.
  intros H [->|[->|(s & ->)]]; discriminate H.
Qed.

Lemma not_string_or_absent (v : jsval) :
  is_undefined v = false -> is_string v = false -> ~ string_or_absent v.
Proof. intros Hu Hs [->|(s & ->)]; discriminate. Qed.

Lemma date_check_Throw (v : jsval) (parsed : option Z) (r r' : Repo) (e : Exception) :
  date_check v parsed r = (Throw e, r') -> r' = r /\ e = date_error.
Proof.
  unfold date_check, throw, ret. destruct (isDateOfBirthProvided v); [|discriminate].
  destruct parsed as [d|].
  - destruct (negb _); [|discriminate]. now intros [= <- <-].
  - now intros [= <- <-].
Qed.

Lemma parse_not_provided (P : Platform) (v : jsval) :
  isDateOfBirthProvided v = false -> parseDateOfBirth P v = None.
Proof.
  destruct v; try reflexivity. cbn [isDateOfBirthProvided parseDateOfBirth].
  now destruct (String.eqb (trim s) EmptyString).
Qed.

Lemma parse_provided (P : Platform) (v : jsval) :
  isDateOfBirthProvided v = true ->
  parseDateOfBirth P v = Date_parse P (as_trimmed v).
Proof.
  destruct v; try discriminate. cbn [isDateOfBirthProvided parseDateOfBirth as_trimmed].
  now destruct (String.eqb (trim s) EmptyString).
Qed.

Lemma date_check_Ok (P : Platform) (v : jsval) (r r' : Repo) :
  date_check v (parseDateOfBirth P v) r = (Ok tt, r') ->
  r' = r /\ checked_date P v (parseDateOfBirth P v).
Proof.
  unfold date_check, throw, ret, checked_date.
  destruct (isDateOfBirthProvided v) eqn:Hp.
  - rewrite (parse_provided P v Hp).
    destruct (Date_parse P (as_trimmed v)) as [d|]; [|discriminate].
    unfold isCalendarDateValid.
    destruct (String.eqb (formatDateToISODateString d) (as_trimmed v)) eqn:Hf;
      [|discriminate].
    apply String.eqb_eq in Hf. intros [= <-].
    split; [reflexivity|]. right. exists d. auto.
  - rewrite (parse_not_provided P v Hp). intros [= <-].
    split; [reflexivity|]. left. auto.
Qed.

Lemma date_check_acceptable (P : Platform) (v : jsval) (r : Repo) :
  date_acceptable P v -> date_check v (parseDateOfBirth P v) r = (Ok tt, r).
Proof.
  unfold date_check, date_acceptable.
  intros [Hp|(t & Hp & Ht & Hf)]; rewrite Hp; [reflexivity|].
  rewrite (parse_provided P v Hp), Ht. unfold isCalendarDateValid.
  now rewrite Hf, String.eqb_refl.
Qed.

Lemma checked_date_acceptable (P : Platform) (v : jsval) (d : option Z) :
  checked_date P v d -> date_acceptable P v /\ d = parseDateOfBirth P v.
Proof.
  intros [[Hp ->]|(t & Hp & -> & Ht & Hf)].
  - split; [now left|]. now rewrite (parse_not_provided P v Hp).
  - split; [right; eauto|]. now rewrite (parse_provided P v Hp).
Qed.

(** *** [create] *)

Lemma create_Throw (P : Platform) (dto : CreateItemDto) (r r' : Repo) (e : Exception) :
  create P dto r = (Throw e, r') ->
  r' = r
  /\ (e = BadRequestException NAME_REQUIRED_MESSAGE \/ e = date_error
      \/ (~ well_typed_create dto /\ instanceof_HttpException e = false)).
Proof.
  unfold create, well_typed_create.
  destruct (c_name dto) as [| | | |n| |];
    try (unfold throw; intros [= <- <-]; now auto).
  destruct (String.eqb (trim n) EmptyString);
    [unfold throw; intros [= <- <-]; now auto|].
  cbv zeta. fold (date_check (c_dateOfBirth dto) (parseDateOfBirth P (c_dateOfBirth dto))).
  intros [H|(? & r1 & H1 & H)]%bind_Throw.
  { apply date_check_Throw in H as [-> ->]. auto. }
  destruct x. apply date_check_Ok in H1 as [-> _].
  apply bind_Throw in H as [H|(sx & r2 & H2 & H)].
  { apply call_trim_Throw in H as (-> & Hs%nullish_not_string & He).
    split; [reflexivity|]. right; right. split; [|exact He]. tauto. }
  apply call_trim_Ok in H2 as [-> _].
  apply bind_Throw in H as [H|(ph & r3 & H3 & H)].
  { apply call_trim_Throw in H as (-> & Hs%nullish_not_string & He).
    split; [reflexivity|]. right; right. split; [|exact He]. tauto. }
  apply call_trim_Ok in H3 as [-> _].
  apply bind_Throw in H as [H|(ad & r4 & H4 & H)].
  { apply call_trim_Throw in H as (-> & Hs%nullish_not_string & He).
    split; [reflexivity|]. right; right. split; [|exact He]. tauto. }
  apply bind_Throw in H as [H|(dr & r5 & H5 & H)]; discriminate H.
Qed.

Lemma create_Ok (P : Platform) (dto : CreateItemDto) (r r' : Repo) (it : Item) :
  create P dto r = (Ok it, r') ->
  (exists n, c_name dto = JStr n /\ trim n <> EmptyString /\ name it = JStr (trim n))
  /\ description it = nullish (c_description dto) (JStr EmptyString)
  /\ checked_date P (c_dateOfBirth dto) (dateOfBirth it)
  /\ well_typed_create dto
  /\ sex it = trimmed_or_empty (c_sex dto)
  /\ phoneNumber it = trimmed_or_empty (c_phoneNumber dto)
  /\ address it = trimmed_or_empty (c_address dto)
  /\ id it = generate_uuid P (minted r)
  /\ rows r' = <[id it := it]> (rows r).
Proof.
  unfold create, well_typed_create.
  destruct (c_name dto) as [| | | |n| |]; try discriminate.
  destruct (String.eqb (trim n) EmptyString) eqn:Hn; [discriminate|].
  apply String.eqb_neq in Hn.
  cbv zeta. fold (date_check (c_dateOfBirth dto) (parseDateOfBirth P (c_dateOfBirth dto))).
  intros (u & r1 & H1 & H)%bind_Ok. destruct u.
  apply date_check_Ok in H1 as [-> Hdate].
  apply bind_Ok in H as (sx & r2 & H2 & H).
  apply call_trim_Ok in H2 as (-> & xs & Hxs%nullish_trimmable & ->).
  apply bind_Ok in H as (ph & r3 & H3 & H).
  apply call_trim_Ok in H3 as (-> & xp & Hxp%nullish_trimmable & ->).
  apply bind_Ok in H as (ad & r4 & H4 & H).
  apply call_trim_Ok in H4 as (-> & xa & Hxa%nullish_trimmable & ->).
  apply bind_Ok in H as (dr & r5 & H5 & H).
  unfold repo_create in H5. injection H5 as <- <-.
  unfold repo_save_new in H. injection H as <- <-.
  cbn [name description dateOfBirth sex phoneNumber address id rows log minted
       d_name d_description d_dateOfBirth d_sex d_phoneNumber d_address].
  destruct Hxs as [Ts ->], Hxp as [Tp ->], Hxa as [Ta ->].
  split; [eauto|]. auto 10.
Qed.

(** X8: a create request that fails has touched nothing: the store comes
    back as it was, without a single repository call.  The failure is the
    name error, the date error, or, when sex, phone number or address is
    neither absent, null nor a string, an exception that is not an
    [HttpException]. *)
Theorem create_failure_touches_nothing (P : Platform) (dto : CreateItemDto)
    (r r' : Repo) (e : Exception) :
  create P dto r = (Throw e, r') ->
  r' = r
  /\ (e = BadRequestException NAME_REQUIRED_MESSAGE \/ e = date_error
      \/ (~ well_typed_create dto /\ instanceof_HttpException e = false)).
Proof. apply create_Throw. Qed.

Lemma create_failure_touches_nothing_witness :
  create test_platform (dated_dto "Test" "2025-02-30") sample_store
  = (Throw date_error,
     (create test_platform (dated_dto "Test" "2025-02-30") sample_store).2)
  /\ (create test_platform (dated_dto "Test" "2025-02-30") sample_store).2
     = sample_store.
Proof.
  assert (H : create test_platform (dated_dto "Test" "2025-02-30") sample_store
              = (Throw date_error,
                 (create test_platform (dated_dto "Test" "2025-02-30") sample_store).2))
    by (vm_compute; reflexivity).
  split; [exact H|].
  exact (proj1 (create_failure_touches_nothing _ _ _ _ _ H)).
Defined.

(** X9: what a successful create stores and returns.  The name is the
    trimmed input name; the description is the input description, or the
    empty string when it is absent or null, and is not trimmed; the date of
    birth is absent or a date that formats back to the trimmed input; sex,
    phone number and address are the trimmed inputs, or empty when absent or
    null; and the returned record is the one stored under its identifier. *)
Theorem create_result (P : Platform) (dto : CreateItemDto) (r r' : Repo) (it : Item) :
  create P dto r = (Ok it, r') ->
  (exists n, c_name dto = JStr n /\ trim n <> EmptyString /\ name it = JStr (trim n))
  /\ description it = nullish (c_description dto) (JStr EmptyString)
  /\ checked_date P (c_dateOfBirth dto) (dateOfBirth it)
  /\ sex it = trimmed_or_empty (c_sex dto)
  /\ phoneNumber it = trimmed_or_empty (c_phoneNumber dto)
  /\ address it = trimmed_or_empty (c_address dto)
  /\ rows r' = <[id it := it]> (rows r)
  /\ rows r' !! id it = Some it.
Proof.
  intros (Hn & Hd & Hb & _ & Hs & Hp & Ha & _ & Hrows)%create_Ok.
  repeat (split; [assumption|]).
  rewrite Hrows. apply lookup_insert_eq.
Qed.

Lemma create_result_witness :
  create test_platform sample_full_dto empty_repo
  = (Ok sample_created, (create test_platform sample_full_dto empty_repo).2)
  /\ sex sample_created = trimmed_or_empty (c_sex sample_full_dto)
  /\ rows (create test_platform sample_full_dto empty_repo).2 !! id sample_created
     = Some sample_created.
Proof.
  assert (H : create test_platform sample_full_dto empty_repo
              = (Ok sample_created, (create test_platform sample_full_dto empty_repo).2))
    by (vm_compute; reflexivity).
  split; [exact H|].
  destruct (create_result _ _ _ _ _ H) as (_ & _ & _ & Hs & _ & _ & _ & Hl).
  split; [exact Hs|exact Hl].
Defined.

(** *** [findOne], [update] and [remove] when they fail *)

Lemma findOne_Throw (i : string) (r r' : Repo) (e : Exception) :
  findOne i r = (Throw e, r') ->
  (isValidUuid i = false /\ e = BadRequestException INVALID_UUID_MESSAGE /\ r' = r)
  \/ (isValidUuid i = true /\ rows r !! i = None
      /\ e = NotFoundException (not_found_message i)
      /\ r' = log (CallFindOne i) r).
Proof.
  unfold findOne. destruct (isValidUuid i); cbn [negb].
  - unfold bind, repo_findOne, throw, ret.
    destruct (rows r !! i) eqn:Hrow; [discriminate|].
    intros [= <- <-]. right. auto.
  - unfold throw. intros [= <- <-]. left. auto.
Qed.

Lemma dateOfBirth_stage_Throw (P : Platform) (v : jsval) (item : Item)
    (r r' : Repo) (e : Exception) :
  dateOfBirth_stage P v item r = (Throw e, r') -> r' = r /\ e = date_error.
Proof.
  unfold dateOfBirth_stage. destruct (is_undefined v); [discriminate|].
  cbv zeta. fold (date_check v (parseDateOfBirth P v)).
  intros [H|(? & r1 & _ & H)]%bind_Throw; [|discriminate H].
  now apply date_check_Throw in H.
Qed.

Lemma dateOfBirth_stage_checked (P : Platform) (v : jsval) (item it : Item)
    (r r' : Repo) :
  dateOfBirth_stage P v item r = (Ok it, r') ->
  is_undefined v = false -> checked_date P v (dateOfBirth it).
Proof.
  unfold dateOfBirth_stage. intros H Hu. rewrite Hu in H.
  cbv zeta in H. fold (date_check v (parseDateOfBirth P v)) in H.
  apply bind_Ok in H as (u & r1 & H1 & H). destruct u.
  apply date_check_Ok in H1 as [-> Hc].
  unfold ret in H. injection H as <- <-. exact Hc.
Qed.

Lemma trimmed_stage_Throw (v : jsval) (set : Item -> string -> Item) (item : Item)
    (r r' : Repo) (e : Exception) :
  trimmed_stage v set item r = (Throw e, r') ->
  r' = r /\ ~ string_or_absent v /\ instanceof_HttpException e = false.
Proof.
  unfold trimmed_stage. destruct (is_undefined v) eqn:Hu; [discriminate|].
  intros [H|(? & r1 & _ & H)]%bind_Throw; [|discriminate H].
  apply call_trim_Throw in H as (-> & Hs & He).
  split; [reflexivity|]. split; [now apply not_string_or_absent|exact He].
Qed.

Lemma update_Throw (P : Platform) (i : string) (dto : UpdateItemDto)
    (r r' : Repo) (e : Exception) :
  update P i dto r = (Throw e, r') ->
  (e = BadRequestException INVALID_UUID_MESSAGE /\ isValidUuid i = false /\ r' = r)
  \/ (e = NotFoundException (not_found_message i) /\ rows r !! i = None
      /\ r' = log (CallFindOne i) r)
  \/ (r' = log (CallFindOne i) r
      /\ (e = date_error
          \/ (~ well_typed_update dto /\ instanceof_HttpException e = false))).
Proof.
  rewrite update_stages. unfold well_typed_update.
  intros [H|(it0 & r0 & H0 & H)]%bind_Throw.
  { apply findOne_Throw in H as [(Hv & -> & ->)|(_ & Hrow & -> & ->)]; auto. }
  apply findOne_Ok in H0 as (_ & _ & ->). cbv zeta in H.
  right; right. 
  apply bind_Throw in H as [H|(it1 & r1 & H1 & H)].
  { apply dateOfBirth_stage_Throw in H as [-> ->]. auto. }
  apply dateOfBirth_stage_Ok in H1 as [-> _].
  apply bind_Throw in H as [H|(it2 & r2 & H2 & H)].
  { apply trimmed_stage_Throw in H as (-> & Hs & He).
    split; [reflexivity|]. right. split; [tauto|exact He]. }
  apply trimmed_stage_Ok in H2 as [-> _].
  apply bind_Throw in H as [H|(it3 & r3 & H3 & H)].
  { apply trimmed_stage_Throw in H as (-> & Hs & He).
    split; [reflexivity|]. right. split; [tauto|exact He]. }
  apply trimmed_stage_Ok in H3 as [-> _].
  apply bind_Throw in H as [H|(it4 & r4 & H4 & H)].
  { apply trimmed_stage_Throw in H as (-> & Hs & He).
    split; [reflexivity|]. right. split; [tauto|exact He]. }
  discriminate H.
Qed.

Lemma update_failure_rows (P : Platform) (i : string) (dto : UpdateItemDto)
    (r r' : Repo) (e : Exception) :
  update P i dto r = (Throw e, r') -> rows r' = rows r.
Proof.
  intros [(_ & _ & ->)|[(_ & _ & ->)|(-> & _)]]%update_Throw; reflexivity.
Qed.

(** X10: an update that fails saves nothing, not even the fields that were
    assigned before the failing one: the records, the clock and the
    identifier counter are those of the store before, and the only
    repository call that can have been made is the look-up by identifier. *)
Theorem update_failure_saves_nothing (P : Platform) (i : string)
    (dto : UpdateItemDto) (r r' : Repo) (e : Exception) :
  update P i dto r = (Throw e, r') ->
  rows r' = rows r /\ clock r' = clock r /\ minted r' = minted r
  /\ (calls r' = calls r \/ calls r' = CallFindOne i :: calls r).
Proof.
  intros [(_ & _ & ->)|[(_ & _ & ->)|(-> & _)]]%update_Throw; cbn [log rows clock minted calls];
    auto.
Qed.

Lemma update_failure_saves_nothing_witness :
  update test_platform sample_id sample_bad_date_patch sample_store
  = (Throw date_error,
     (update test_platform sample_id sample_bad_date_patch sample_store).2)
  /\ rows (update test_platform sample_id sample_bad_date_patch sample_store).2
     = rows sample_store.
Proof.
  assert (H : update test_platform sample_id sample_bad_date_patch sample_store
              = (Throw date_error,
                 (update test_platform sample_id sample_bad_date_patch sample_store).2))
    by (vm_compute; reflexivity).
  split; [exact H|].
  exact (proj1 (update_failure_saves_nothing _ _ _ _ _ _ H)).
Defined.

(** *** [remove] *)

Lemma remove_Ok (i : string) (r r' : Repo) (it : Item) :
  remove i r = (Ok it, r') ->
  isValidUuid i = true /\ rows r !! i = Some it
  /\ rows r' = delete (id it) (rows r).
Proof.
  unfold remove. intros (it0 & r0 & H0 & H)%bind_Ok.
  apply findOne_Ok in H0 as (Hv & Hrow & ->).
  apply bind_Ok in H as (u & r1 & H1 & H).
  unfold repo_remove in H1. injection H1 as _ <-.
  unfold ret in H. injection H as <- <-. auto.
Qed.

Lemma remove_Throw (i : string) (r r' : Repo) (e : Exception) :
  remove i r = (Throw e, r') ->
  (e = BadRequestException INVALID_UUID_MESSAGE /\ isValidUuid i = false /\ r' = r)
  \/ (e = NotFoundException (not_found_message i) /\ rows r !! i = None
      /\ r' = log (CallFindOne i) r).
Proof.
  unfold remove. intros [H|(it0 & r0 & _ & H)]%bind_Throw.
  - apply findOne_Throw in H as [(Hv & -> & ->)|(_ & Hrow & -> & ->)]; auto.
  - apply bind_Throw in H as [H|(u & r1 & _ & H)]; discriminate H.
Qed.

(** X11: a successful delete returns the record that was stored under the
    identifier, removes the record with the identifier that record carries,
    and leaves every other record as it was. *)
Theorem remove_only_the_target (i : string) (r r' : Repo) (it : Item) :
  remove i r = (Ok it, r') ->
  rows r !! i = Some it
  /\ rows r' !! id it = None
  /\ forall k, k <> id it -> rows r' !! k = rows r !! k.
Proof.
  intros (_ & Hrow & ->)%remove_Ok. split; [exact Hrow|].
  split; [apply lookup_delete_eq|].
  intros k Hk. now apply lookup_delete_ne.
Qed.

Lemma remove_only_the_target_witness :
  remove sample_id sample_store = (Ok sample_first, (remove sample_id sample_store).2)
  /\ rows sample_store !! sample_id = Some sample_first
  /\ rows (remove sample_id sample_store).2 !! id sample_first = None.
Proof.
  assert (H : remove sample_id sample_store
              = (Ok sample_first, (remove sample_id sample_store).2))
    by (vm_compute; reflexivity).
  split; [exact H|].
  destruct (remove_only_the_target _ _ _ _ H) as (H1 & H2 & _). auto.
Defined.

(** *** When [create] and [update] succeed *)

Lemma call_trim_trimmable (v : jsval) (r : Repo) :
  trimmable v ->
  call_trim (nullish v (JStr EmptyString)) r = (Ok (trimmed_or_empty v), r).
Proof. intros [->|[->|(s & ->)]]; reflexivity. Qed.

Lemma create_succeeds (P : Platform) (dto : CreateItemDto) (r : Repo) :
  valid_name (c_name dto) -> date_acceptable P (c_dateOfBirth dto) ->
  well_typed_create dto ->
  exists it r', create P dto r = (Ok it, r').
Proof.
  intros (n & Hn & Hne%String.eqb_neq) Hd (Hs & Hp & Ha).
  unfold create. rewrite Hn, Hne. cbv zeta.
  fold (date_check (c_dateOfBirth dto) (parseDateOfBirth P (c_dateOfBirth dto))).
  rewrite (bind_eq_Ok _ _ _ _ _ (date_check_acceptable P _ r Hd)).
  rewrite (bind_eq_Ok _ _ _ _ _ (call_trim_trimmable _ r Hs)).
  rewrite (bind_eq_Ok _ _ _ _ _ (call_trim_trimmable _ r Hp)).
  rewrite (bind_eq_Ok _ _ _ _ _ (call_trim_trimmable _ r Ha)).
  unfold bind, repo_create, repo_save_new. eauto.
Qed.

(** X12: create succeeds exactly when the name is a string that is not blank,
    the date of birth is not provided or survives the round trip, and sex,
    phone number and address are each absent, null or a string. *)
Theorem create_succeeds_iff (P : Platform) (dto : CreateItemDto) (r : Repo) :
  (exists it r', create P dto r = (Ok it, r'))
  <-> valid_name (c_name dto) /\ date_acceptable P (c_dateOfBirth dto)
      /\ well_typed_create dto.
Proof.
  split.
  - intros (it & r' & ((n & Hn & Hne & _) & _ & Hd & Hw & _)%create_Ok).
    split; [exists n; auto|]. split; [|exact Hw].
    now apply checked_date_acceptable in Hd.
  - intros (Hn & Hd & Hw). now apply create_succeeds.
Qed.

Lemma dateOfBirth_stage_acceptable (P : Platform) (v : jsval) (item : Item) (r : Repo) :
  date_acceptable P v ->
  dateOfBirth_stage P v item r
  = (Ok (if is_undefined v then item
         else set_dateOfBirth item (parseDateOfBirth P v)), r).
Proof.
  intros Hd. unfold dateOfBirth_stage. destruct (is_undefined v); [reflexivity|].
  cbv zeta. fold (date_check v (parseDateOfBirth P v)).
  now rewrite (bind_eq_Ok _ _ _ _ _ (date_check_acceptable P v r Hd)).
Qed.

Lemma dateOfBirth_stage_Ok_acceptable (P : Platform) (v : jsval) (item it : Item)
    (r r' : Repo) :
  dateOfBirth_stage P v item r = (Ok it, r') -> date_acceptable P v.
Proof.
  intros H. destruct (is_undefined v) eqn:Hu.
  - apply is_undefined_true in Hu. subst v. now left.
  - now apply (dateOfBirth_stage_checked P v item it r r' H), checked_date_acceptable in Hu.
Qed.

Lemma trimmed_stage_Ok_typed (v : jsval) (set : Item -> string -> Item)
    (item it : Item) (r r' : Repo) :
  trimmed_stage v set item r = (Ok it, r') -> string_or_absent v.
Proof.
  intros (_ & [[-> _]|(s & -> & _)])%trimmed_stage_Ok; [now left|right; eauto].
Qed.

Lemma update_succeeds (P : Platform) (i : string) (dto : UpdateItemDto)
    (r : Repo) (it0 : Item) :
  isValidUuid i = true -> rows r !! i = Some it0 ->
  date_acceptable P (u_dateOfBirth dto) -> well_typed_update dto ->
  exists it' r', update P i dto r = (Ok it', r').
Proof.
  intros Hv Hrow Hd (Hs & Hp & Ha).
  rewrite update_stages.
  rewrite (bind_eq_Ok _ _ _ _ _ (findOne_found i r it0 Hv Hrow)). cbv zeta.
  rewrite (bind_eq_Ok _ _ _ _ _ (dateOfBirth_stage_acceptable P _ _ _ Hd)).
  match goal with
  | |- context [bind (trimmed_stage (u_sex dto) set_sex ?it) _ ?rr] =>
      destruct (trimmed_stage_typed _ set_sex it rr Hs) as (it3 & E3 & _)
  end.
  rewrite (bind_eq_Ok _ _ _ _ _ E3).
  destruct (trimmed_stage_typed _ set_phoneNumber it3 (log (CallFindOne i) r) Hp)
    as (it4 & E4 & _).
  rewrite (bind_eq_Ok _ _ _ _ _ E4).
  destruct (trimmed_stage_typed _ set_address it4 (log (CallFindOne i) r) Ha)
    as (it5 & E5 & _).
  rewrite (bind_eq_Ok _ _ _ _ _ E5).
  unfold repo_save. eauto.
Qed.

Lemma update_Ok_conditions (P : Platform) (i : string) (dto : UpdateItemDto)
    (r r' : Repo) (it' : Item) :
  update P i dto r = (Ok it', r') ->
  date_acceptable P (u_dateOfBirth dto) /\ well_typed_update dto.
Proof.
  rewrite update_stages.
  intros (it0 & r0 & _ & H)%bind_Ok. cbv zeta in H.
  apply bind_Ok in H as (it1 & r1 & Hdob & H).
  apply bind_Ok in H as (it2 & r2 & Hsex & H).
  apply bind_Ok in H as (it3 & r3 & Hphone & H).
  apply bind_Ok in H as (it4 & r4 & Haddr & _).
  split; [now apply dateOfBirth_stage_Ok_acceptable in Hdob|].
  split; [|split]; eapply trimmed_stage_Ok_typed; eassumption.
Qed.

(** X13: update succeeds exactly when the identifier is well formed, a
    record is stored under it, the date of birth is absent, not provided or
    survives the round trip, and sex, phone number and address are each
    absent or a string.  Name and description are never a reason to fail. *)
Theorem update_succeeds_iff (P : Platform) (i : string) (dto : UpdateItemDto)
    (r : Repo) :
  (exists it' r', update P i dto r = (Ok it', r'))
  <-> uuid_format i /\ (exists it0, rows r !! i = Some it0)
      /\ date_acceptable P (u_dateOfBirth dto) /\ well_typed_update dto.
Proof.
  split.
  - intros (it' & r' & H).
    pose proof (update_Ok_conditions _ _ _ _ _ _ H) as [Hd Hw].
    apply update_Ok in H as (it0 & _ & Hv & Hrow & _).
    split; [now apply isValidUuid_format|]. eauto.
  - intros (Hv%isValidUuid_format & (it0 & Hrow) & Hd & Hw).
    now apply (update_succeeds P i dto r it0).
Qed.

(** X14: an update whose [dateOfBirth] is present but not a string (null, a
    number, ...) is not refused: when it succeeds, the record it returns and
    stores has no date of birth. *)
Theorem update_non_string_date_clears (P : Platform) (i : string)
    (dto : UpdateItemDto) (r : Repo) (it0 : Item) :
  uuid_format i -> rows r !! i = Some it0 ->
  u_dateOfBirth dto <> JUndefined -> is_string (u_dateOfBirth dto) = false ->
  well_typed_update dto ->
  exists it' r',
    update P i dto r = (Ok it', r')
    /\ dateOfBirth it' = None
    /\ rows r' !! id it0 = Some it'.
Proof.
  intros Hv%isValidUuid_format Hrow Hne Hns Hw.
  assert (Hnp : isDateOfBirthProvided (u_dateOfBirth dto) = false)
    by (destruct (u_dateOfBirth dto); try reflexivity; discriminate Hns).
  destruct (update_succeeds P i dto r it0 Hv Hrow (or_introl Hnp) Hw)
    as (it' & r' & H).
  exists it', r'. split; [exact H|].
  apply update_Ok in H
    as (it0' & it & _ & Hrow' & Hsave & Hid & _ & _ & _ & Hd & _).
  rewrite Hrow in Hrow'. injection Hrow' as <-.
  apply repo_save_eq in Hsave as (Sid & _ & _ & Sb & _ & _ & _ & _ & _ & Srows).
  assert (Hu : is_undefined (u_dateOfBirth dto) = false).
  { destruct (is_undefined _) eqn:E; [|reflexivity]. now apply is_undefined_true in E. }
  rewrite Hu, (parse_not_provided P _ Hnp) in Hd.
  split; [congruence|]. rewrite Srows, Hid. apply lookup_insert_eq.
Qed.

Lemma update_non_string_date_clears_witness :
  exists it' r',
    update test_platform sample_id sample_null_date_patch
      (update test_platform sample_id sample_patch sample_store).2 = (Ok it', r')
    /\ dateOfBirth it' = None
    /\ rows r' !! id sample_patched = Some it'.
Proof.
  apply (update_non_string_date_clears test_platform sample_id sample_null_date_patch
           (update test_platform sample_id sample_patch sample_store).2 sample_patched).
  - apply isValidUuid_format. reflexivity.
  - vm_compute. reflexivity.
  - discriminate.
  - reflexivity.
  - repeat split; left; reflexivity.
Defined.

(** *** Reading back what was written *)

Lemma update_Ok_saved (P : Platform) (i : string) (dto : UpdateItemDto)
    (r r' : Repo) (it' : Item) :
  update P i dto r = (Ok it', r') ->
  exists it0,
    isValidUuid i = true /\ rows r !! i = Some it0
    /\ rows r' = <[id it0 := it']> (rows r)
    /\ id it' = id it0 /\ createdAt it' = createdAt it0
    /\ name it' = (if is_undefined (u_name dto) then name it0 else u_name dto)
    /\ description it' = (if is_undefined (u_description dto) then description it0
                          else u_description dto)
    /\ dateOfBirth it' = (if is_undefined (u_dateOfBirth dto) then dateOfBirth it0
                          else parseDateOfBirth P (u_dateOfBirth dto))
    /\ ((u_sex dto = JUndefined /\ sex it' = sex it0)
        \/ exists s, u_sex dto = JStr s /\ sex it' = trim s)
    /\ ((u_phoneNumber dto = JUndefined /\ phoneNumber it' = phoneNumber it0)
        \/ exists s, u_phoneNumber dto = JStr s /\ phoneNumber it' = trim s)
    /\ ((u_address dto = JUndefined /\ address it' = address it0)
        \/ exists s, u_address dto = JStr s /\ address it' = trim s).
Proof.
  intros (it0 & it & Hv & Hrow & Hsave & Hid & Hcr & Hn & Hd & Hb & Hs & Hp & Ha)%update_Ok.
  apply repo_save_eq in Hsave
    as (Sid & Sn & Sd & Sb & Ss & Sp & Sa & Scr & _ & Srows).
  exists it0. rewrite Sid, Sn, Sd, Sb, Ss, Sp, Sa, Scr, Srows, Hid.
  cbn [log rows]. auto 15.
Qed.

(** X15: reading a record right after a successful update of it returns
    exactly the record the update returned (in a store where records sit
    under their own identifier). *)
Theorem update_then_findOne (P : Platform) (i : string) (dto : UpdateItemDto)
    (r r' : Repo) (it' : Item) :
  update P i dto r = (Ok it', r') -> keyed_by_id (rows r) ->
  findOne i r' = (Ok it', log (CallFindOne i) r').
Proof.
  intros (it0 & Hv & Hrow & Hrows & _)%update_Ok_saved Hk.
  apply (findOne_found i r' it' Hv).
  rewrite Hrows, (Hk _ _ Hrow). apply lookup_insert_eq.
Qed.

Lemma update_then_findOne_witness :
  update test_platform sample_id sample_patch sample_store
  = (Ok sample_patched, (update test_platform sample_id sample_patch sample_store).2)
  /\ keyed_by_id (rows sample_store)
  /\ (findOne sample_id (update test_platform sample_id sample_patch sample_store).2).1
     = Ok sample_patched.
Proof.
  assert (H : update test_platform sample_id sample_patch sample_store
              = (Ok sample_patched,
                 (update test_platform sample_id sample_patch sample_store).2))
    by (vm_compute; reflexivity).
  assert (Hk : keyed_by_id (rows sample_store)) by apply run_keyed_by_id.
  split; [exact H|]. split; [exact Hk|].
  now rewrite (update_then_findOne _ _ _ _ _ _ H Hk).
Defined.

(** X16: reading a record right after its creation, by the identifier the
    database gave it, returns exactly the record create returned, provided
    that identifier has the UUID format. *)
Theorem create_then_findOne (P : Platform) (dto : CreateItemDto)
    (r r' : Repo) (it : Item) :
  create P dto r = (Ok it, r') -> uuid_format (id it) ->
  findOne (id it) r' = (Ok it, log (CallFindOne (id it)) r').
Proof.
  intros (_ & _ & _ & _ & _ & _ & _ & _ & Hrows)%create_Ok Hv%isValidUuid_format.
  apply (findOne_found _ r' it Hv). rewrite Hrows. apply lookup_insert_eq.
Qed.

Lemma create_then_findOne_witness :
  create test_platform sample_full_dto empty_repo
  = (Ok sample_created, (create test_platform sample_full_dto empty_repo).2)
  /\ uuid_format (id sample_created)
  /\ (findOne (id sample_created) (create test_platform sample_full_dto empty_repo).2).1
     = Ok sample_created.
Proof.
  assert (H : create test_platform sample_full_dto empty_repo
              = (Ok sample_created, (create test_platform sample_full_dto empty_repo).2))
    by (vm_compute; reflexivity).
  assert (Hv : uuid_format (id sample_created))
    by (apply isValidUuid_format; reflexivity).
  split; [exact H|]. split; [exact Hv|].
  now rewrite (create_then_findOne _ _ _ _ _ H Hv).
Defined.

(** X17: a successful update can be repeated: the same request on the store
    it produced succeeds again and returns a record that differs from the
    first result at most in updated-at. *)
Theorem update_twice (P : Platform) (i : string) (dto : UpdateItemDto)
    (r r1 : Repo) (it1 : Item) :
  update P i dto r = (Ok it1, r1) -> keyed_by_id (rows r) ->
  exists it2 r2,
    update P i dto r1 = (Ok it2, r2) /\ same_but_updatedAt it2 it1.
Proof.
  intros H Hk.
  pose proof (update_Ok_conditions _ _ _ _ _ _ H) as [Hd Hw].
  apply update_Ok_saved in H
    as (it0 & Hv & Hrow & Hrows & Hid & Hcr & Hn & Hde & Hb & Hs & Hp & Ha).
  assert (Hrow1 : rows r1 !! i = Some it1).
  { rewrite Hrows, (Hk _ _ Hrow). apply lookup_insert_eq. }
  destruct (update_succeeds P i dto r1 it1 Hv Hrow1 Hd Hw) as (it2 & r2 & H2).
  exists it2, r2. split; [exact H2|].
  apply update_Ok_saved in H2
    as (it1' & _ & Hrow1' & _ & Hid2 & Hcr2 & Hn2 & Hde2 & Hb2 & Hs2 & Hp2 & Ha2).
  rewrite Hrow1 in Hrow1'. injection Hrow1' as <-.
  unfold same_but_updatedAt.
  split; [exact Hid2|].
  split. { rewrite Hn2, Hn. now destruct (is_undefined (u_name dto)). }
  split. { rewrite Hde2, Hde. now destruct (is_undefined (u_description dto)). }
  split. { rewrite Hb2, Hb. now destruct (is_undefined (u_dateOfBirth dto)). }
  split. { destruct Hs2 as [[_ ->]|(s2 & E2 & ->)]; [reflexivity|].
           destruct Hs as [[E _]|(s & E & ->)]; congruence. }
  split. { destruct Hp2 as [[_ ->]|(s2 & E2 & ->)]; [reflexivity|].
           destruct Hp as [[E _]|(s & E & ->)]; congruence. }
  split. { destruct Ha2 as [[_ ->]|(s2 & E2 & ->)]; [reflexivity|].
           destruct Ha as [[E _]|(s & E & ->)]; congruence. }
  exact Hcr2.
Qed.

Lemma update_twice_witness :
  update test_platform sample_id sample_patch sample_store
  = (Ok sample_patched, (update test_platform sample_id sample_patch sample_store).2)
  /\ exists it2 r2,
       update test_platform sample_id sample_patch
         (update test_platform sample_id sample_patch sample_store).2 = (Ok it2, r2)
       /\ same_but_updatedAt it2 sample_patched.
Proof.
  assert (H : update test_platform sample_id sample_patch sample_store
              = (Ok sample_patched,
                 (update test_platform sample_id sample_patch sample_store).2))
    by (vm_compute; reflexivity).
  split; [exact H|].
  exact (update_twice _ _ _ _ _ _ H (run_keyed_by_id test_platform _)).
Defined.

(** *** Invariants of the stored records *)

Lemma step_rows (P : Platform) (o : op) (r : Repo) :
  rows (step P o r) = rows r
  \/ (exists k, rows (step P o r) = delete k (rows r))
  \/ (exists dto it r',
        create P dto r = (Ok it, r')
        /\ rows (step P o r) = <[id it := it]> (rows r))
  \/ (exists i dto it0 it' r',
        rows r !! i = Some it0 /\ update P i dto r = (Ok it', r')
        /\ rows (step P o r) = <[id it0 := it']> (rows r)).
Proof.
  destruct o as [dto| |i|i dto|i]; cbn [step].
  - destruct (create P dto r) as [[it|e] r'] eqn:H; cbn [snd].
    + right; right; left. exists dto, it, r'. split; [exact H|].
      now apply create_Ok in H as (_ & _ & _ & _ & _ & _ & _ & _ & Hrows).
    + left. now apply create_Throw in H as [-> _].
  - now left.
  - left. apply findOne_rows.
  - destruct (update P i dto r) as [[it'|e] r'] eqn:H; cbn [snd].
    + right; right; right.
      pose proof H as (it0 & _ & Hrow & Hrows & _)%update_Ok_saved.
      exists i, dto, it0, it', r'. auto.
    + left. now apply (update_failure_rows P i dto r r' e).
  - destruct (remove i r) as [[it|e] r'] eqn:H; cbn [snd].
    + right; left. exists (id it). now apply remove_Ok in H as (_ & _ & Hrows).
    + left. apply remove_Throw in H as [(_ & _ & ->)|(_ & _ & ->)]; reflexivity.
Qed.

(** A property of records that create establishes and update preserves holds
    for every record of every store the service can produce. *)
Lemma run_invariant (P : Platform) (Q : Item -> Prop) :
  (forall dto r it r', create P dto r = (Ok it, r') -> Q it) ->
  (forall i dto r it0 it' r',
     rows r !! i = Some it0 -> Q it0 -> update P i dto r = (Ok it', r') -> Q it') ->
  forall ops k it, rows (run P ops) !! k = Some it -> Q it.
Proof.
  intros Hc Hu ops. unfold run.
  induction ops as [|o ops IH] using rev_ind; intros k it.
  - cbn. now rewrite lookup_empty.
  - rewrite foldl_snoc.
    set (r := foldl (fun r o => step P o r) empty_repo ops) in *.
    destruct (step_rows P o r)
      as [->|[(k' & ->)|[(dto & it1 & r' & H & ->)|(i & dto & it0 & it' & r' & Hrow & H & ->)]]].
    + apply IH.
    + destruct (decide (k' = k)) as [->|Hne].
      * now rewrite lookup_delete_eq.
      * rewrite lookup_delete_ne by assumption. apply IH.
    + destruct (decide (id it1 = k)) as [<-|Hne].
      * rewrite lookup_insert_eq. intros [= <-]. eapply Hc, H.
      * rewrite lookup_insert_ne by assumption. apply IH.
    + destruct (decide (id it0 = k)) as [<-|Hne].
      * rewrite lookup_insert_eq. intros [= <-].
        eapply Hu; [exact Hrow| |exact H]. eapply IH, Hrow.
      * rewrite lookup_insert_ne by assumption. apply IH.
Qed.

Lemma trimmed_or_empty_trimmed (v : jsval) :
  trim (trimmed_or_empty v) = trimmed_or_empty v.
Proof. destruct v; try reflexivity. apply trim_idempotent. Qed.

(** X18: in every store that a sequence of requests produces from the empty
    store, the sex, phone number and address of every record are trimmed:
    trimming them again changes nothing. *)
Theorem stored_fields_trimmed (P : Platform) (ops : list op) (k : string) (it : Item) :
  rows (run P ops) !! k = Some it -> trimmed_fields it.
Proof.
  apply (run_invariant P trimmed_fields).
  - intros dto r it1 r' (_ & _ & _ & _ & Hs & Hp & Ha & _)%create_Ok.
    unfold trimmed_fields. rewrite Hs, Hp, Ha.
    repeat split; apply trimmed_or_empty_trimmed.
  - intros i dto r it0 it' r' Hrow (Q1 & Q2 & Q3) H.
    apply update_Ok_saved in H as (it0' & _ & Hrow' & _ & _ & _ & _ & _ & _ & Hs & Hp & Ha).
    rewrite Hrow in Hrow'. injection Hrow' as <-.
    unfold trimmed_fields. split; [|split].
    + destruct Hs as [[_ ->]|(s & _ & ->)]; [exact Q1|apply trim_idempotent].
    + destruct Hp as [[_ ->]|(s & _ & ->)]; [exact Q2|apply trim_idempotent].
    + destruct Ha as [[_ ->]|(s & _ & ->)]; [exact Q3|apply trim_idempotent].
Qed.

Lemma stored_fields_trimmed_witness :
  rows (run test_platform
          [OpCreate sample_full_dto; OpUpdate sample_id sample_patch]) !! sample_id
  = Some {| id := sample_id; name := JStr "Ada"; description := JStr " first ";
            dateOfBirth := Some 475027200000; sex := "female";
            phoneNumber := EmptyString; address := EmptyString;
            createdAt := 0; updatedAt := 1 |}
  /\ trim "female" = "female".
Proof.
  assert (H : rows (run test_platform
                      [OpCreate sample_full_dto; OpUpdate sample_id sample_patch])
              !! sample_id
              = Some {| id := sample_id; name := JStr "Ada"; description := JStr " first ";
                        dateOfBirth := Some 475027200000; sex := "female";
                        phoneNumber := EmptyString; address := EmptyString;
                        createdAt := 0; updatedAt := 1 |})
    by (vm_compute; reflexivity).
  split; [exact H|].
  exact (proj1 (stored_fields_trimmed _ _ _ _ H)).
Defined.

(** X19: in every store that a sequence of requests produces from the empty
    store, every stored date of birth survives the round trip: the engine
    parses its formatted form back to the same time value. *)
Theorem stored_dates_round_trip (P : Platform) (ops : list op) (k : string) (it : Item) :
  rows (run P ops) !! k = Some it -> date_round_trips P it.
Proof.
  apply (run_invariant P (date_round_trips P)).
  - intros dto r it1 r' (_ & _ & Hd & _)%create_Ok t Ht.
    destruct Hd as [[_ Hn]|(t' & _ & Hs & Hp & Hf)]; [congruence|].
    rewrite Hs in Ht. injection Ht as <-. now rewrite Hf.
  - intros i dto r it0 it' r' Hrow Q H t Ht.
    pose proof (update_Ok_conditions _ _ _ _ _ _ H) as [Hacc _].
    apply update_Ok_saved in H as (it0' & _ & Hrow' & _ & _ & _ & _ & _ & Hb & _).
    rewrite Hrow in Hrow'. injection Hrow' as <-.
    destruct (is_undefined (u_dateOfBirth dto)).
    + apply Q. congruence.
    + destruct Hacc as [Hnp|(t' & Hp & Hparse & Hf)].
      * rewrite (parse_not_provided P _ Hnp) in Hb. congruence.
      * rewrite (parse_provided P _ Hp), Hparse in Hb.
        assert (t = t') by congruence. subst t'. now rewrite Hf.
Qed.

Lemma stored_dates_round_trip_witness :
  rows (run test_platform
          [OpCreate sample_full_dto; OpUpdate sample_id sample_patch]) !! sample_id
  = Some {| id := sample_id; name := JStr "Ada"; description := JStr " first ";
            dateOfBirth := Some 475027200000; sex := "female";
            phoneNumber := EmptyString; address := EmptyString;
            createdAt := 0; updatedAt := 1 |}
  /\ Date_parse test_platform (formatDateToISODateString 475027200000)
     = Some 475027200000.
Proof.
  assert (H : rows (run test_platform
                      [OpCreate sample_full_dto; OpUpdate sample_id sample_patch])
              !! sample_id
              = Some {| id := sample_id; name := JStr "Ada"; description := JStr " first ";
                        dateOfBirth := Some 475027200000; sex := "female";
                        phoneNumber := EmptyString; address := EmptyString;
                        createdAt := 0; updatedAt := 1 |})
    by (vm_compute; reflexivity).
  split; [exact H|].
  exact (stored_dates_round_trip _ _ _ _ H 475027200000 eq_refl).
Defined.

(** *** [findAll] *)





(** *** The handlers of the controller *)

Lemma catch_BadRequest (msg : string) :
  catch (BadRequestException msg) = bad_request msg.
Proof. reflexivity. Qed.

Lemma catch_NotFound (msg : string) :
  catch (NotFoundException msg) = not_found msg.
Proof. reflexivity. Qed.

(** X21: the create handler, on a body whose sex, phone number and address
    are absent, null or strings, has three possible replies: 201 with the
    stored record, 400 with the name message, or 400 with the date message;
    in the two 400 cases the store is untouched. *)
Theorem controller_create_replies (P : Platform) (body : CreateItemDto) (r : Repo) :
  well_typed_create body ->
  (exists it r', controller_create P body r = (Success 201 it, r')
                 /\ rows r' !! id it = Some it)
  \/ controller_create P body r = (Failure (bad_request NAME_REQUIRED_MESSAGE), r)
  \/ controller_create P body r
     = (Failure (bad_request INVALID_DATE_OF_BIRTH_MESSAGE), r).
Proof.
  intros Hw. unfold controller_create, respond.
  destruct (create P body r) as [[it|e] r'] eqn:H.
  - left. exists it, r'. split; [reflexivity|].
    apply create_Ok in H as (_ & _ & _ & _ & _ & _ & _ & _ & ->).
    apply lookup_insert_eq.
  - apply create_Throw in H as (-> & [->|[->|[Hn _]]]).
    + right; left. reflexivity.
    + right; right. reflexivity.
    + contradiction.
Qed.

Lemma controller_create_replies_witness :
  well_typed_create sample_full_dto
  /\ ((exists it r',
         controller_create test_platform sample_full_dto empty_repo = (Success 201 it, r')
         /\ rows r' !! id it = Some it)
      \/ controller_create test_platform sample_full_dto empty_repo
         = (Failure (bad_request NAME_REQUIRED_MESSAGE), empty_repo)
      \/ controller_create test_platform sample_full_dto empty_repo
         = (Failure (bad_request INVALID_DATE_OF_BIRTH_MESSAGE), empty_repo)).
Proof.
  assert (Hw : well_typed_create sample_full_dto).
  { split; [right; right; eexists; reflexivity|].
    split; [right; left; reflexivity|left; reflexivity]. }
  split; [exact Hw|].
  exact (controller_create_replies test_platform sample_full_dto empty_repo Hw).
Defined.

(** X22: the update handler, on a body whose sex, phone number and address
    are absent or strings, has four possible replies: 200 with the stored
    record; 400 with the identifier message, the store untouched; 404 with
    the not-found message; 400 with the date message.  In the last two cases
    the store has only seen the look-up. *)
Theorem controller_update_replies (P : Platform) (i : string) (body : UpdateItemDto)
    (r : Repo) :
  well_typed_update body ->
  (exists it r', controller_update P i body r = (Success 200 it, r'))
  \/ controller_update P i body r = (Failure (bad_request INVALID_UUID_MESSAGE), r)
  \/ controller_update P i body r
     = (Failure (not_found (not_found_message i)), log (CallFindOne i) r)
  \/ controller_update P i body r
     = (Failure (bad_request INVALID_DATE_OF_BIRTH_MESSAGE), log (CallFindOne i) r).
Proof.
  intros Hw. unfold controller_update, respond.
  destruct (update P i body r) as [[it|e] r'] eqn:H.
  - left. eauto.
  - apply update_Throw in H
      as [(-> & _ & ->)|[(-> & _ & ->)|(-> & [->|[Hn _]])]].
    + right; left. reflexivity.
    + right; right; left. reflexivity.
    + right; right; right. reflexivity.
    + contradiction.
Qed.

Lemma controller_update_replies_witness :
  well_typed_update sample_bad_date_patch
  /\ ((exists it r',
         controller_update test_platform sample_id sample_bad_date_patch sample_store
         = (Success 200 it, r'))
      \/ controller_update test_platform sample_id sample_bad_date_patch sample_store
         = (Failure (bad_request INVALID_UUID_MESSAGE), sample_store)
      \/ controller_update test_platform sample_id sample_bad_date_patch sample_store
         = (Failure (not_found (not_found_message sample_id)),
            log (CallFindOne sample_id) sample_store)
      \/ controller_update test_platform sample_id sample_bad_date_patch sample_store
         = (Failure (bad_request INVALID_DATE_OF_BIRTH_MESSAGE),
            log (CallFindOne sample_id) sample_store)).
Proof.
  assert (Hw : well_typed_update sample_bad_date_patch)
    by (repeat split; left; reflexivity).
  split; [exact Hw|].
  exact (controller_update_replies test_platform sample_id sample_bad_date_patch
           sample_store Hw).
Defined.

(** X23: the read-one and delete handlers have three possible replies each:
    200 with the record stored under the identifier; 400 with the identifier
    message, the store untouched; 404 with the not-found message, the store
    having only seen the look-up.  They never answer 500. *)
Theorem controller_read_delete_replies (i : string) (r : Repo) :
  ((exists it, controller_findOne i r = (Success 200 it, log (CallFindOne i) r)
               /\ rows r !! i = Some it)
   \/ controller_findOne i r = (Failure (bad_request INVALID_UUID_MESSAGE), r)
   \/ controller_findOne i r
      = (Failure (not_found (not_found_message i)), log (CallFindOne i) r))
  /\ ((exists it r', controller_remove i r = (Success 200 it, r')
                     /\ rows r !! i = Some it)
      \/ controller_remove i r = (Failure (bad_request INVALID_UUID_MESSAGE), r)
      \/ controller_remove i r
         = (Failure (not_found (not_found_message i)), log (CallFindOne i) r)).
Proof.
  unfold controller_findOne, controller_remove, respond. split.
  - destruct (findOne i r) as [[it|e] r'] eqn:H.
    + apply findOne_Ok in H as (_ & Hrow & ->). left. eauto.
    + apply findOne_Throw in H as [(_ & -> & ->)|(_ & _ & -> & ->)].
      * right; left. reflexivity.
      * right; right. reflexivity.
  - destruct (remove i r) as [[it|e] r'] eqn:H.
    + apply remove_Ok in H as (_ & Hrow & _). left. eauto.
    + apply remove_Throw in H as [(-> & _ & ->)|(-> & _ & ->)].
      * right; left. reflexivity.
      * right; right. reflexivity.
Qed.

End ServiceProps.
